(** * The command-line front end of the market data scraper

    A shallow embedding of [main.py] (the [print_dataframe] helper and the
    [main] dispatcher) and of [example_fred_data] from [example_usage.py].

    The program is glue around three collaborators whose code is not part
    of these two files: the [scraper] package (the scraper and client
    classes and the [FRED_SERIES] table), pandas, and the operating system
    (environment variables, the file system).  They appear here as
    parameters: a [Pandas] interface, a [World] that answers every call of
    a scraper or client, and a [FRED_SERIES] dictionary.  What a run does
    is recorded as a trace of events: lines printed, options set, and
    calls made to the collaborators together with their outcome.

    The input of [main] is the namespace that [argparse] hands back.  A
    constructor, a method of a scraper or of the client, and [to_csv] may
    each return or raise, an instance of [Exception] or another
    exception; [print] and the pandas operations on values already
    fetched return. *)

From Stdlib Require Import ZArith String Ascii List Bool Lia.
From stdpp Require Import base option list strings gmap pretty.

Open Scope string_scope.

(** ** Python values the program relies on *)

Module Py.

(** The newline character of an f-string such as [f"\nRows: ..."]. *)
Definition nl : string := String "010"%char EmptyString.

(** [s * n] on strings. *)
Fixpoint str_mul (s : string) (n : nat) : string :=
  match n with
  | O => EmptyString
  | S k => s ++ str_mul s k
  end.

(** [str.upper] and [str.replace] on one-character patterns; strings are
    ASCII text. *)
Definition upper_char (c : ascii) : ascii :=
  let n := nat_of_ascii c in
  if (97 <=? n)%nat && (n <=? 122)%nat then ascii_of_nat (n - 32) else c.

Fixpoint upper (s : string) : string :=
  match s with
  | EmptyString => EmptyString
  | String c r => String (upper_char c) (upper r)
  end.

Fixpoint replace (a b : ascii) (s : string) : string :=
  match s with
  | EmptyString => EmptyString
  | String c r => String (if Ascii.eqb c a then b else c) (replace a b r)
  end.

(** Truth value testing, as done by [if x:] and [not x]. *)
Class Truthy (A : Type) := truthy : A -> bool.

#[export] Instance truthy_bool : Truthy bool := fun b => b.
#[export] Instance truthy_str : Truthy string :=
  fun s => match s with EmptyString => false | String _ _ => true end.
#[export] Instance truthy_int : Truthy Z := fun z => negb (z =? 0)%Z.
(** [None] is false; any other object answers for itself. *)
#[export] Instance truthy_optional {A} `{Truthy A} : Truthy (option A) :=
  fun o => match o with None => false | Some a => truthy a end.

(** The value of [x] inside the branch guarded by [if x:], when [x] may
    be [None]. *)
Definition given {A} `{Truthy A} (o : option A) : option A :=
  match o with
  | Some a => if truthy a then Some a else None
  | None => None
  end.

(** A keyword argument with a default: left out of the call, or given. *)
Inductive Kwarg (A : Type) : Type :=
| Default
| Given (a : A).
Arguments Default {A}.
Arguments Given {A} a.

(** An exception object: the name of its class, [str(e)], and whether it
    is an instance of [Exception], the class the [except] clauses of the
    program name.  [KeyboardInterrupt] and [SystemExit] are exceptions
    that are no instances of [Exception]. *)
Record PyException : Type := {
  exc_class : string;
  exc_str : string;
  exc_is_Exception : bool
}.

(** How a call ends. *)
Inductive Result (A : Type) : Type :=
| Returned (a : A)
| Raised (e : PyException).
Arguments Returned {A} a.
Arguments Raised {A} e.

Definition raised {A} (r : Result A) : option PyException :=
  match r with
  | Returned _ => None
  | Raised e => Some e
  end.

End Py.
Export Py.

(** ** pandas *)

(** The three display options [print_dataframe] sets. *)
Record DisplayOptions : Type := {
  max_columns : option nat;
  width : option nat;
  max_colwidth : option nat
}.

(** What the program uses of pandas.  [Dict] is a plain dictionary as the
    scrapers return it for a quote or a set of ratios. *)
Class Pandas : Type := {
  DataFrame : Type;
  Dict : Type;
  DataFrame_of_records : list Dict -> DataFrame;  (* pd.DataFrame([d]) *)
  df_empty : DataFrame -> bool;                   (* df.empty *)
  df_len : DataFrame -> nat;                      (* len(df) *)
  df_to_string : DisplayOptions -> bool -> DataFrame -> string;
                                                  (* df.to_string(index=b) *)
  df_repr : DataFrame -> string;                  (* str(df), as print shows it *)
  df_head : nat -> DataFrame -> DataFrame;        (* df.head(n) *)
  df_tail : nat -> DataFrame -> DataFrame;        (* df.tail(n) *)
  default_options : DisplayOptions
}.

(** ** Parsed arguments

    The namespace [parser.parse_args()] returns, one record per
    subcommand, with the types and defaults of the [add_argument]
    declarations: a [store_true] flag is a [bool], an option without a
    default is [None] when absent. *)

Record StockArgs : Type := {
  stock_symbol : string;
  stock_quote : bool;
  stock_period : string;
  stock_start_date : option string;
  stock_end_date : option string;
  stock_intraday : bool;
  stock_output : option string
}.

Record FredArgs : Type := {
  fred_series : option string;
  fred_release_id : option Z;
  fred_start_date : option string;
  fred_end_date : option string;
  fred_search : option string;
  fred_output : option string
}.

Record FundamentalArgs : Type := {
  fundamental_symbol : string;
  fundamental_ratios : bool;
  fundamental_metrics : bool;
  fundamental_trend : bool;
  fundamental_output : option string
}.

Record NewsArgs : Type := {
  news_symbol : string;
  news_limit : Z;
  news_output : option string
}.

Record SecArgs : Type := {
  sec_symbol : string;
  sec_filing_type : option string;
  sec_limit : Z;
  sec_output : option string
}.

Record AlternativeArgs : Type := {
  alternative_symbol : string;
  alternative_short_interest : bool;
  alternative_institutional : bool;
  alternative_output : option string
}.

(** [args.command] with the arguments of that subcommand; [NoCommand] is
    [args.command = None]. *)
Inductive Namespace : Type :=
| NoCommand
| stock (a : StockArgs)
| fred (a : FredArgs)
| fundamental (a : FundamentalArgs)
| news (a : NewsArgs)
| sec (a : SecArgs)
| alternative (a : AlternativeArgs).

(** The namespace [a] with another value of [--release-id]. *)
Definition with_release_id (release_id : option Z) (a : FredArgs) : FredArgs :=
  {| fred_series := fred_series a; fred_release_id := release_id;
     fred_start_date := fred_start_date a; fred_end_date := fred_end_date a;
     fred_search := fred_search a; fred_output := fred_output a |}.

(** The namespace of [stock --symbol s] with nothing else on the command
    line. *)
Definition stock_parser_defaults (s : string) : StockArgs :=
  {| stock_symbol := s; stock_quote := false; stock_period := "1y";
     stock_start_date := None; stock_end_date := None;
     stock_intraday := false; stock_output := None |}.

(** ** Calls, events and the monad of a run *)

Section Program.

Context `{Pandas}.

(** A value of the dictionary [get_financials] returns: a DataFrame, or
    anything else. *)
Inductive PyValue : Type :=
| VDataFrame (df : DataFrame)
| VOther.

(** Every call the program makes to a collaborator, with its arguments
    as written at the call site. *)
Inductive Call : Type :=
| New_StockScraper
| New_FREDClient (api_key : Kwarg (option string))
| New_FundamentalScraper
| New_NewsScraper
| New_AlternativeDataScraper
| Get_real_time_quote (symbol : string)
| Get_intraday_data (symbol : string)
| Get_historical_data (symbol : string) (start_date end_date : Kwarg (option string))
    (period : string)
| Search_series (search_text : string)
| Get_release_observations (release_id : Z) (limit : Kwarg Z)
    (next_cursor : Kwarg string)
| Get_series (series_id : string) (start_date end_date : Kwarg (option string))
| Get_valuation_ratios (symbol : string)
| Get_key_metrics (symbol : string)
| Get_revenue_profit_trend (symbol : string)
| Get_financials (symbol : string)
| Get_company_news (symbol : string) (limit : Kwarg Z)
| Get_sec_filings (symbol : string) (filing_type : Kwarg (option string))
    (limit : Kwarg Z)
| Get_short_interest (symbol : string)
| Get_institutional_holdings (symbol : string)
| To_csv (df : DataFrame) (path : string) (index : bool).

(** The methods of the scrapers and of the FRED client that fetch data. *)
Definition is_fetch (c : Call) : bool :=
  match c with
  | New_StockScraper | New_FREDClient _ | New_FundamentalScraper
  | New_NewsScraper | New_AlternativeDataScraper | To_csv _ _ _ => false
  | _ => true
  end.

Definition is_to_csv (c : Call) : bool :=
  match c with
  | To_csv _ _ _ => true
  | _ => false
  end.

(** What a run does, in order.  [Invoke c r] is the call [c] ended with
    [r]: [None] when it returned, [Some e] when it raised [e]. *)
Inductive Event : Type :=
| Print (line : string)
| PrintHelp
| PrintExc (e : PyException)
| SetOption (name : string) (value : option nat)
| Invoke (c : Call) (r : option PyException).

(** A computation: the events so far and how it ended. *)
Definition M (A : Type) : Type := (list Event * Result A)%type.

#[local] Instance M_ret : MRet M := fun A a => ([], Returned a).

#[local] Instance M_bind : MBind M := fun A B f m =>
  match m with
  | (t, Returned a) => let '(t', r) := f a in ((t ++ t')%list, r)
  | (t, Raised e) => (t, Raised e)
  end.

Definition emit (ev : Event) : M unit := ([ev], Returned tt).

Definition print (line : string) : M unit := emit (Print line).

Definition call {A} (c : Call) (r : Result A) : M A := ([Invoke c (raised r)], r).

(** [try: m  except Exception as e: h e].  The clause handles the
    instances of [Exception]; any other exception leaves the statement
    as it came. *)
Definition try_except {A} (m : M A) (h : PyException -> M A) : M A :=
  match m with
  | (t, Raised e) =>
      if exc_is_Exception e then let '(t', r) := h e in ((t ++ t')%list, r)
      else (t, Raised e)
  | (t, Returned a) => (t, Returned a)
  end.

Definition trace {A} (m : M A) : list Event := fst m.
Definition outcome {A} (m : M A) : Result A := snd m.

(** The calls of a trace in order, the fetches among them, the CSV
    writes among them, and the lines printed. *)
Definition calls (t : list Event) : list Call :=
  omap (fun ev => match ev with Invoke c _ => Some c | _ => None end) t.

Definition fetches (t : list Event) : list Call := List.filter is_fetch (calls t).

Definition csv_writes (t : list Event) : list Call := List.filter is_to_csv (calls t).

Definition printed (t : list Event) : list string :=
  omap (fun ev => match ev with Print s => Some s | _ => None end) t.

(** ** The collaborators *)

(** The answer of the outside world to every call: the constructors and
    methods of the [scraper] package, [DataFrame.to_csv], and
    [os.getenv]. *)
Record World : Type := {
  getenv : string -> option string;
  new_StockScraper : Result unit;
  new_FREDClient : Kwarg (option string) -> Result unit;
  new_FundamentalScraper : Result unit;
  new_NewsScraper : Result unit;
  new_AlternativeDataScraper : Result unit;
  get_real_time_quote : string -> Result Dict;
  get_intraday_data : string -> Result DataFrame;
  get_historical_data :
    string -> Kwarg (option string) -> Kwarg (option string) -> string -> Result DataFrame;
  search_series : string -> Result DataFrame;
  get_release_observations : Z -> Kwarg Z -> Kwarg string -> Result DataFrame;
  get_series :
    string -> Kwarg (option string) -> Kwarg (option string) -> Result DataFrame;
  get_valuation_ratios : string -> Result Dict;
  get_key_metrics : string -> Result Dict;
  get_revenue_profit_trend : string -> Result DataFrame;
  get_financials : string -> Result (list (string * PyValue));
  get_company_news : string -> Kwarg Z -> Result DataFrame;
  get_sec_filings : string -> Kwarg (option string) -> Kwarg Z -> Result DataFrame;
  get_short_interest : string -> Result Dict;
  get_institutional_holdings : string -> Result DataFrame;
  to_csv : DataFrame -> string -> bool -> Result unit
}.

Variable W : World.

(** The [FRED_SERIES] dictionary of the [scraper] package. *)
Variable FRED_SERIES : gmap string string.

(** ** [print_dataframe] *)

Definition banner_rule : string := str_mul "=" 60.

(** The display options in force after the three [pd.set_option] calls. *)
Definition print_options : DisplayOptions :=
  {| max_columns := None; width := None; max_colwidth := Some 50 |}.

Definition print_dataframe (df : DataFrame) (title : string) : M unit :=
  (if truthy title then
     print (nl ++ banner_rule);;
     print title;;
     print banner_rule
   else mret tt);;
  if df_empty df then
    print "No data available."
  else
    emit (SetOption "display.max_columns" None);;
    emit (SetOption "display.width" None);;
    emit (SetOption "display.max_colwidth" (Some 50));;
    print (df_to_string print_options false df);;
    print (nl ++ "Rows: " ++ pretty (df_len df)).

(** ** The methods called by [main] and by the examples *)

Definition StockScraper_new : M unit :=
  call New_StockScraper (new_StockScraper W).
Definition FREDClient_new (api_key : Kwarg (option string)) : M unit :=
  call (New_FREDClient api_key) (new_FREDClient W api_key).
Definition FundamentalScraper_new : M unit :=
  call New_FundamentalScraper (new_FundamentalScraper W).
Definition NewsScraper_new : M unit :=
  call New_NewsScraper (new_NewsScraper W).
Definition AlternativeDataScraper_new : M unit :=
  call New_AlternativeDataScraper (new_AlternativeDataScraper W).

Definition scraper_get_real_time_quote (symbol : string) : M Dict :=
  call (Get_real_time_quote symbol) (get_real_time_quote W symbol).
Definition scraper_get_intraday_data (symbol : string) : M DataFrame :=
  call (Get_intraday_data symbol) (get_intraday_data W symbol).
Definition scraper_get_historical_data (symbol : string)
    (start_date end_date : Kwarg (option string)) (period : string) : M DataFrame :=
  call (Get_historical_data symbol start_date end_date period)
       (get_historical_data W symbol start_date end_date period).
Definition fred_search_series (search_text : string) : M DataFrame :=
  call (Search_series search_text) (search_series W search_text).
Definition fred_get_release_observations (release_id : Z) (limit : Kwarg Z)
    (next_cursor : Kwarg string) : M DataFrame :=
  call (Get_release_observations release_id limit next_cursor)
       (get_release_observations W release_id limit next_cursor).
Definition fred_get_series (series_id : string)
    (start_date end_date : Kwarg (option string)) : M DataFrame :=
  call (Get_series series_id start_date end_date)
       (get_series W series_id start_date end_date).
Definition scraper_get_valuation_ratios (symbol : string) : M Dict :=
  call (Get_valuation_ratios symbol) (get_valuation_ratios W symbol).
Definition scraper_get_key_metrics (symbol : string) : M Dict :=
  call (Get_key_metrics symbol) (get_key_metrics W symbol).
Definition scraper_get_revenue_profit_trend (symbol : string) : M DataFrame :=
  call (Get_revenue_profit_trend symbol) (get_revenue_profit_trend W symbol).
Definition scraper_get_financials (symbol : string) : M (list (string * PyValue)) :=
  call (Get_financials symbol) (get_financials W symbol).
Definition scraper_get_company_news (symbol : string) (limit : Kwarg Z) : M DataFrame :=
  call (Get_company_news symbol limit) (get_company_news W symbol limit).
Definition scraper_get_sec_filings (symbol : string)
    (filing_type : Kwarg (option string)) (limit : Kwarg Z) : M DataFrame :=
  call (Get_sec_filings symbol filing_type limit)
       (get_sec_filings W symbol filing_type limit).
Definition scraper_get_short_interest (symbol : string) : M Dict :=
  call (Get_short_interest symbol) (get_short_interest W symbol).
Definition scraper_get_institutional_holdings (symbol : string) : M DataFrame :=
  call (Get_institutional_holdings symbol) (get_institutional_holdings W symbol).

(** [df.to_csv(path, index=False)]. *)
Definition df_to_csv (df : DataFrame) (path : string) : M unit :=
  call (To_csv df path false) (to_csv W df path false).

(** [for x in l: body x]. *)
Definition for_each {A} (l : list A) (body : A -> M unit) : M unit :=
  fold_right (fun x rest => body x;; rest) (mret tt) l.

(** ** [main], one definition per branch of its dispatch *)

(** The lookup of line 156: [FRED_SERIES.get(series.upper(), series)]. *)
Definition resolve_series (series : string) : string :=
  default series (FRED_SERIES !! upper series).

(** The three modes of the stock command (lines 124 to 138): the table
    that was fetched and printed. *)
Definition stock_fetch (a : StockArgs) : M DataFrame :=
  let symbol := stock_symbol a in
  if truthy (stock_quote a) then
    quote ← scraper_get_real_time_quote symbol;
    print_dataframe (DataFrame_of_records [quote]) ("Real-time Quote: " ++ symbol);;
    mret (DataFrame_of_records [quote])
  else if truthy (stock_intraday a) then
    data ← scraper_get_intraday_data symbol;
    print_dataframe data ("Intraday Data: " ++ symbol);;
    mret data
  else
    data ← scraper_get_historical_data symbol
             (Given (stock_start_date a)) (Given (stock_end_date a))
             (stock_period a);
    print_dataframe data ("Historical Data: " ++ symbol);;
    mret data.

Definition stock_command (a : StockArgs) : M unit :=
  StockScraper_new;;
  data ← stock_fetch a;
  match given (stock_output a) with
  | Some path =>
      df_to_csv data path;;
      print (nl ++ "Data saved to " ++ path)
  | None => mret tt
  end.

(** The inner dispatch of the fred command; [None] is the early
    [return] of line 161. *)
Definition fred_fetch (a : FredArgs) : M (option DataFrame) :=
  match given (fred_search a) with
  | Some search =>
      data ← fred_search_series search;
      print_dataframe data ("FRED Series Search: " ++ search);;
      mret (Some data)
  | None =>
  match given (fred_release_id a) with
  | Some release_id =>
      data ← fred_get_release_observations release_id Default Default;
      print_dataframe data ("FRED Release " ++ pretty release_id);;
      mret (Some data)
  | None =>
  match given (fred_series a) with
  | Some series =>
      let series_id := resolve_series series in
      data ← fred_get_series series_id
               (Given (fred_start_date a)) (Given (fred_end_date a));
      print_dataframe data ("FRED Series: " ++ series_id);;
      mret (Some data)
  | None =>
      print "Please specify --series, --release-id, or --search";;
      mret None
  end end end.

Definition fred_command (a : FredArgs) : M unit :=
  let api_key := getenv W "FRED_API_KEY" in
  FREDClient_new (Given api_key);;
  fetched ← fred_fetch a;
  match fetched with
  | None => mret tt
  | Some data =>
      match given (fred_output a) with
      | Some path =>
          if negb (df_empty data) then
            df_to_csv data path;;
            print (nl ++ "Data saved to " ++ path)
          else mret tt
      | None => mret tt
      end
  end.

Definition fundamental_command (a : FundamentalArgs) : M unit :=
  let symbol := fundamental_symbol a in
  let save (df : DataFrame) : M unit :=
    match given (fundamental_output a) with
    | Some path => df_to_csv df path
    | None => mret tt
    end in
  FundamentalScraper_new;;
  if truthy (fundamental_ratios a) then
    ratios ← scraper_get_valuation_ratios symbol;
    print_dataframe (DataFrame_of_records [ratios]) ("Valuation Ratios: " ++ symbol);;
    save (DataFrame_of_records [ratios])
  else if truthy (fundamental_metrics a) then
    metrics ← scraper_get_key_metrics symbol;
    print_dataframe (DataFrame_of_records [metrics]) ("Key Metrics: " ++ symbol);;
    save (DataFrame_of_records [metrics])
  else if truthy (fundamental_trend a) then
    trend ← scraper_get_revenue_profit_trend symbol;
    print_dataframe trend ("Revenue/Profit Trend: " ++ symbol);;
    save trend
  else
    financials ← scraper_get_financials symbol;
    print (nl ++ banner_rule);;
    print ("Financial Statements: " ++ symbol);;
    print banner_rule;;
    for_each financials (fun '(key, value) =>
      match value with
      | VDataFrame df =>
          if negb (df_empty df) then
            print (nl ++ replace "_" " " (upper key) ++ ":");;
            print (df_to_string default_options true df)
          else mret tt
      | VOther => mret tt
      end).

Definition news_command (a : NewsArgs) : M unit :=
  NewsScraper_new;;
  news ← scraper_get_company_news (news_symbol a) (Given (news_limit a));
  print_dataframe news ("Company News: " ++ news_symbol a);;
  match given (news_output a) with
  | Some path =>
      df_to_csv news path;;
      print (nl ++ "Data saved to " ++ path)
  | None => mret tt
  end.

Definition sec_command (a : SecArgs) : M unit :=
  NewsScraper_new;;
  filings ← scraper_get_sec_filings (sec_symbol a)
              (Given (sec_filing_type a)) (Given (sec_limit a));
  print_dataframe filings ("SEC Filings: " ++ sec_symbol a);;
  match given (sec_output a) with
  | Some path =>
      df_to_csv filings path;;
      print (nl ++ "Data saved to " ++ path)
  | None => mret tt
  end.

Definition alternative_command (a : AlternativeArgs) : M unit :=
  let symbol := alternative_symbol a in
  let save (df : DataFrame) : M unit :=
    match given (alternative_output a) with
    | Some path => df_to_csv df path
    | None => mret tt
    end in
  AlternativeDataScraper_new;;
  if truthy (alternative_short_interest a) then
    data ← scraper_get_short_interest symbol;
    print_dataframe (DataFrame_of_records [data]) ("Short Interest: " ++ symbol);;
    save (DataFrame_of_records [data])
  else if truthy (alternative_institutional a) then
    data ← scraper_get_institutional_holdings symbol;
    print_dataframe data ("Institutional Holdings: " ++ symbol);;
    save data
  else
    print "Please specify --short-interest or --institutional".

(** The body of the [try] block: the chain of tests on [args.command]. *)
Definition dispatch (args : Namespace) : M unit :=
  match args with
  | stock a => stock_command a
  | fred a => fred_command a
  | fundamental a => fundamental_command a
  | news a => news_command a
  | sec a => sec_command a
  | alternative a => alternative_command a
  | NoCommand => mret tt
  end.

(** The [except Exception as e] clause. *)
Definition handler (e : PyException) : M unit :=
  print ("Error: " ++ exc_str e);;
  emit (PrintExc e).

Definition main (args : Namespace) : M unit :=
  match args with
  | NoCommand => emit PrintHelp
  | _ => try_except (dispatch args) handler
  end.

(** ** [example_fred_data] of [example_usage.py] *)

Definition example_fred_data : M unit :=
  print (nl ++ str_mul "=" 60);;
  print "FRED ECONOMIC DATA EXAMPLE";;
  print (str_mul "=" 60);;
  FREDClient_new Default;;
  print (nl ++ "1. GDP Data (last 5 years):");;
  gdp ← fred_get_series "GDP" (Given (Some "2019-01-01")) Default;
  (if negb (df_empty gdp) then print (df_repr (df_tail 5 gdp)) else mret tt);;
  print (nl ++ "2. Release Observations (Release ID 52):");;
  release_data ← fred_get_release_observations 52 (Given 10%Z) Default;
  (if negb (df_empty release_data) then print (df_repr (df_head 10 release_data))
   else mret tt);;
  print (nl ++ "3. Pagination Example:");;
  print "   First page:";;
  page1 ← fred_get_release_observations 52 (Given 5%Z) Default;
  if negb (df_empty page1) then
    print ("   Retrieved " ++ pretty (df_len page1) ++ " observations");;
    print "   To get next page, use:";;
    print "   page2 = fred.get_release_observations(release_id=52, next_cursor='ABSITCMDODFS,1995-01-01')"
  else mret tt.

End Program.

Arguments main {_} W FRED_SERIES args.
Arguments dispatch {_} W FRED_SERIES args.
Arguments example_fred_data {_} W.
Arguments stock_fetch {_} W a.
Arguments fred_fetch {_} W FRED_SERIES a.

(** ** A small pandas and a small world, to run the program on

    Tables are a header and rows of text; a dictionary is a list of
    key-value pairs.  [empty] follows pandas: a table with no column or
    no row is empty. *)

Module Fixture.

Record Table : Type := { header : list string; rows : list (list string) }.

Definition join (sep : string) (l : list string) : string :=
  fold_right (fun x acc => match acc with
                           | EmptyString => x
                           | _ => x ++ sep ++ acc
                           end) EmptyString l.

Definition render (index : bool) (t : Table) : string :=
  join nl (join " " (header t) ::
           imap (fun i r => (if index then pretty i ++ " " else "") ++ join " " r)
                (rows t)).

#[export] Instance pandas : Pandas := {|
  DataFrame := Table;
  Dict := list (string * string);
  DataFrame_of_records ds :=
    {| header := match ds with d :: _ => map fst d | [] => [] end;
       rows := map (map snd) ds |};
  df_empty t :=
    match header t, rows t with
    | [], _ | _, [] => true
    | _, _ => false
    end;
  df_len t := length (rows t);
  df_to_string _ index t := render index t;
  df_repr t := render true t;
  df_head n t := {| header := header t; rows := take n (rows t) |};
  df_tail n t := {| header := header t; rows := drop (length (rows t) - n) (rows t) |};
  default_options := {| max_columns := Some 20; width := Some 80; max_colwidth := Some 50 |}
|}.

Definition prices : Table :=
  {| header := ["Date"; "Close"];
     rows := [["2024-01-02"; "185.64"]; ["2024-01-03"; "184.25"]] |}.

Definition no_rows : Table := {| header := ["Date"; "Close"]; rows := [] |}.

Definition quote : list (string * string) :=
  [("symbol", "AAPL"); ("current_price", "185.64")].

Definition http_error : PyException :=
  {| exc_class := "ConnectionError"; exc_str := "HTTP 500";
     exc_is_Exception := true |}.

(** Ctrl-C while a call is under way. *)
Definition interrupt : PyException :=
  {| exc_class := "KeyboardInterrupt"; exc_str := ""; exc_is_Exception := false |}.

(** A world in which every constructor and every write succeeds and
    every fetch of a table ends with [fetched]. *)
Definition world (fetched : Result Table) : World :=
  {| getenv := fun _ => Some "key";
     new_StockScraper := Returned tt;
     new_FREDClient := fun _ => Returned tt;
     new_FundamentalScraper := Returned tt;
     new_NewsScraper := Returned tt;
     new_AlternativeDataScraper := Returned tt;
     get_real_time_quote := fun _ => Returned quote;
     get_intraday_data := fun _ => fetched;
     get_historical_data := fun _ _ _ _ => fetched;
     search_series := fun _ => fetched;
     get_release_observations := fun _ _ _ => fetched;
     get_series := fun _ _ _ => fetched;
     get_valuation_ratios := fun _ => Returned quote;
     get_key_metrics := fun _ => Returned quote;
     get_revenue_profit_trend := fun _ => fetched;
     get_financials := fun _ => Returned [("income_statement", VDataFrame prices)];
     get_company_news := fun _ _ => fetched;
     get_sec_filings := fun _ _ _ => fetched;
     get_short_interest := fun _ => Returned quote;
     get_institutional_holdings := fun _ => fetched;
     to_csv := fun _ _ _ => Returned tt |}.

Definition series_table : gmap string string :=
  {[ "GDP" := "GDP"; "UNEMPLOYMENT" := "UNRATE" ]}.

Definition fred_args : FredArgs :=
  {| fred_series := None; fred_release_id := None; fred_start_date := None;
     fred_end_date := None; fred_search := None; fred_output := None |}.

Definition series_args (series : string) : FredArgs :=
  {| fred_series := Some series; fred_release_id := None; fred_start_date := None;
     fred_end_date := None; fred_search := None; fred_output := Some "o.csv" |}.

Definition news_args (output : option string) : NewsArgs :=
  {| news_symbol := "AAPL"; news_limit := 20; news_output := output |}.

End Fixture.

(** ** Observations on traces *)

(** The first call that raised: its exception and the events after it. *)
Fixpoint after_raise `{Pandas} (t : list Event) : option (PyException * list Event) :=
  match t with
  | [] => None
  | Invoke _ (Some e) :: rest => Some (e, rest)
  | _ :: rest => after_raise rest
  end.

(** A fetch that returned occurs in the trace. *)
Definition fetch_returned `{Pandas} (t : list Event) : bool :=
  existsb (fun ev => match ev with
                     | Invoke c None => is_fetch c
                     | _ => false
                     end) t.

(** Every write of a CSV file comes after a fetch that returned ([seen]
    says whether one came earlier). *)
Fixpoint writes_follow_fetch `{Pandas} (seen : bool) (t : list Event) : bool :=
  match t with
  | [] => true
  | Invoke c r :: rest =>
      if is_to_csv c then seen && writes_follow_fetch seen rest
      else writes_follow_fetch
             (seen || (is_fetch c && match r with None => true | Some _ => false end))
             rest
  | _ :: rest => writes_follow_fetch seen rest
  end.

Definition is_constructor `{Pandas} (c : Call) : bool :=
  negb (is_fetch c) && negb (is_to_csv c).

(** What follows in a run of [main] the call that raised [e]: the report
    of the [except] clause when [e] is an instance of [Exception], and
    nothing otherwise. *)
Definition failure `{Pandas} (e : PyException) : list Event :=
  if exc_is_Exception e then [Print ("Error: " ++ exc_str e); PrintExc e] else [].

(** The forms a run of [main] can take: output only; a constructor, then
    at most one fetch, then output, then at most one write; and the
    failure report right after the first call that raises. *)
Inductive run_shape `{Pandas} : list Event -> Prop :=
| shape_output q :
    calls q = [] -> run_shape q
| shape_constructor_raised c e :
    is_constructor c = true ->
    run_shape (Invoke c (Some e) :: failure e)
| shape_no_fetch c q :
    is_constructor c = true -> calls q = [] ->
    run_shape (Invoke c None :: q)
| shape_fetch_raised c f e :
    is_constructor c = true -> is_fetch f = true ->
    run_shape (Invoke c None :: Invoke f (Some e) :: failure e)
| shape_fetched c f q :
    is_constructor c = true -> is_fetch f = true -> calls q = [] ->
    run_shape (Invoke c None :: Invoke f None :: q)
| shape_write_raised c f q w e :
    is_constructor c = true -> is_fetch f = true -> calls q = [] ->
    is_to_csv w = true ->
    run_shape (Invoke c None :: Invoke f None :: q ++ Invoke w (Some e) :: failure e)
| shape_written c f q w q' :
    is_constructor c = true -> is_fetch f = true -> calls q = [] ->
    is_to_csv w = true -> calls q' = [] ->
    run_shape (Invoke c None :: Invoke f None :: q ++ Invoke w None :: q').

(** ** More observations on runs of [main] *)

(** [args.output], for the commands that have one. *)
Definition output_of (args : Namespace) : option string :=
  match args with
  | NoCommand => None
  | stock a => stock_output a
  | fred a => fred_output a
  | fundamental a => fundamental_output a
  | news a => news_output a
  | sec a => sec_output a
  | alternative a => alternative_output a
  end.

(** The same command line without [--output]. *)
Definition without_output (args : Namespace) : Namespace :=
  match args with
  | NoCommand => NoCommand
  | stock a =>
      stock {| stock_symbol := stock_symbol a; stock_quote := stock_quote a;
               stock_period := stock_period a; stock_start_date := stock_start_date a;
               stock_end_date := stock_end_date a; stock_intraday := stock_intraday a;
               stock_output := None |}
  | fred a =>
      fred {| fred_series := fred_series a; fred_release_id := fred_release_id a;
              fred_start_date := fred_start_date a; fred_end_date := fred_end_date a;
              fred_search := fred_search a; fred_output := None |}
  | fundamental a =>
      fundamental {| fundamental_symbol := fundamental_symbol a;
                     fundamental_ratios := fundamental_ratios a;
                     fundamental_metrics := fundamental_metrics a;
                     fundamental_trend := fundamental_trend a;
                     fundamental_output := None |}
  | news a =>
      news {| news_symbol := news_symbol a; news_limit := news_limit a;
              news_output := None |}
  | sec a =>
      sec {| sec_symbol := sec_symbol a; sec_filing_type := sec_filing_type a;
             sec_limit := sec_limit a; sec_output := None |}
  | alternative a =>
      alternative {| alternative_symbol := alternative_symbol a;
                     alternative_short_interest := alternative_short_interest a;
                     alternative_institutional := alternative_institutional a;
                     alternative_output := None |}
  end.

(** [args.symbol], for the commands that have one. *)
Definition symbol_of (args : Namespace) : option string :=
  match args with
  | NoCommand | fred _ => None
  | stock a => Some (stock_symbol a)
  | fundamental a => Some (fundamental_symbol a)
  | news a => Some (news_symbol a)
  | sec a => Some (sec_symbol a)
  | alternative a => Some (alternative_symbol a)
  end.

(** The ticker symbol a call is made for. *)
Definition call_symbol `{Pandas} (c : Call) : option string :=
  match c with
  | Get_real_time_quote s | Get_intraday_data s | Get_historical_data s _ _ _
  | Get_valuation_ratios s | Get_key_metrics s | Get_revenue_profit_trend s
  | Get_financials s | Get_company_news s _ | Get_sec_filings s _ _
  | Get_short_interest s | Get_institutional_holdings s => Some s
  | _ => None
  end.

(** The constructor call each command starts with (lines 122, 147, 169,
    198, 208 and 218). *)
Definition scraper_constructor `{Pandas} (W : World) (args : Namespace) : option Call :=
  match args with
  | NoCommand => None
  | stock _ => Some New_StockScraper
  | fred _ => Some (New_FREDClient (Given (getenv W "FRED_API_KEY")))
  | fundamental _ => Some New_FundamentalScraper
  | news _ | sec _ => Some New_NewsScraper
  | alternative _ => Some New_AlternativeDataScraper
  end.

(** The first write of a CSV file: the call, how it ended, and the events
    after it. *)
Fixpoint after_write `{Pandas} (t : list Event)
  : option (Call * option PyException * list Event) :=
  match t with
  | [] => None
  | Invoke c r :: rest => if is_to_csv c then Some (c, r, rest) else after_write rest
  | _ :: rest => after_write rest
  end.

(** ** The rest of [example_usage.py]

    The examples read fields of the dictionaries and rows they fetch and
    format them into lines.  [Value] is a Python object found there,
    [Row] a row as [iterrows] yields it. *)

Class PyObjects `{Pandas} : Type := {
  Value : Type;
  Row : Type;
  py_None : Value;
  dict_lookup : Dict -> string -> option Value;   (* the entry of a key, if any *)
  row_lookup : Row -> string -> option Value;
  format_value : Value -> string;                 (* f"{v}" *)
  format_grouped : Value -> Result string;        (* f"{v:,}" *)
  add_one : Value -> Result Value;                (* v + 1 *)
  df_select : list string -> DataFrame -> Result DataFrame;  (* df[[...]] *)
  df_iterrows : DataFrame -> list (Value * Row)   (* df.iterrows() *)
}.

Section Examples.

Context `{Pandas} `{!PyObjects}.

#[local] Existing Instance M_ret.
#[local] Existing Instance M_bind.

Variable W : World.

(** An operation on values already fetched that may raise: no call goes
    out. *)
Definition lift {A} (r : Result A) : M A := ([], r).

Definition raise {A} (e : PyException) : M A := lift (Raised e).

(** [KeyError(key)]; [str] of it is the key in quotes. *)
Definition KeyError (key : string) : PyException :=
  {| exc_class := "KeyError"; exc_str := "'" ++ key ++ "'"; exc_is_Exception := true |}.

(** [d[key]]. *)
Definition dict_getitem (d : Dict) (key : string) : M Value :=
  match dict_lookup d key with
  | Some v => mret v
  | None => raise (KeyError key)
  end.

(** [d.get(key)]. *)
Definition dict_get (d : Dict) (key : string) : Value :=
  match dict_lookup d key with
  | Some v => v
  | None => py_None
  end.

(** [row[key]]. *)
Definition row_getitem (row : Row) (key : string) : M Value :=
  match row_lookup row key with
  | Some v => mret v
  | None => raise (KeyError key)
  end.

Definition example_stock_data : M unit :=
  print (nl ++ str_mul "=" 60);;
  print "STOCK DATA EXAMPLE";;
  print (str_mul "=" 60);;
  StockScraper_new W;;
  print (nl ++ "1. Real-time Quote for AAPL:");;
  quote ← scraper_get_real_time_quote W "AAPL";
  current_price ← dict_getitem quote "current_price";
  print ("   Current Price: $" ++ format_value current_price);;
  market_cap ← dict_getitem quote "market_cap";
  grouped ← lift (format_grouped market_cap);
  print ("   Market Cap: $" ++ grouped);;
  print (nl ++ "2. Historical Data (last 5 days):");;
  historical ← scraper_get_historical_data W "AAPL" Default Default "5d";
  columns ← lift (df_select ["Date"; "Open"; "High"; "Low"; "Close"; "Volume"] historical);
  print (df_repr (df_tail 5 columns)).

Definition example_fundamental_data : M unit :=
  print (nl ++ str_mul "=" 60);;
  print "FUNDAMENTAL DATA EXAMPLE";;
  print (str_mul "=" 60);;
  FundamentalScraper_new W;;
  print (nl ++ "1. Valuation Ratios for AAPL:");;
  ratios ← scraper_get_valuation_ratios W "AAPL";
  print ("   P/E Ratio: " ++ format_value (dict_get ratios "pe_ratio"));;
  print ("   Price to Book: " ++ format_value (dict_get ratios "price_to_book"));;
  market_cap ← lift (format_grouped (dict_get ratios "market_cap"));
  print ("   Market Cap: $" ++ market_cap);;
  print (nl ++ "2. Key Metrics for AAPL:");;
  metrics ← scraper_get_key_metrics W "AAPL";
  revenue ← lift (format_grouped (dict_get metrics "revenue"));
  print ("   Revenue: $" ++ revenue);;
  print ("   Profit Margin: " ++ format_value (dict_get metrics "profit_margin") ++ "%");;
  print ("   ROE: " ++ format_value (dict_get metrics "return_on_equity")).

(** The body of the loop over the news: lines 103 to 105. *)
Definition print_article (entry : Value * Row) : M unit :=
  let '(idx, row) := entry in
  number ← lift (add_one idx);
  title ← row_getitem row "title";
  print ("   " ++ format_value number ++ ". " ++ format_value title);;
  published_date ← row_getitem row "published_date";
  print ("      Published: " ++ format_value published_date);;
  link ← row_getitem row "link";
  print ("      Link: " ++ format_value link ++ nl).

(** The body of the loop over the filings: lines 112 and 113. *)
Definition print_filing (entry : Value * Row) : M unit :=
  let '(idx, row) := entry in
  number ← lift (add_one idx);
  filing_type ← row_getitem row "filing_type";
  title ← row_getitem row "title";
  print ("   " ++ format_value number ++ ". " ++ format_value filing_type ++ ": "
         ++ format_value title);;
  published ← row_getitem row "published";
  print ("      Published: " ++ format_value published ++ nl).

Definition example_news_data : M unit :=
  print (nl ++ str_mul "=" 60);;
  print "NEWS AND SEC FILINGS EXAMPLE";;
  print (str_mul "=" 60);;
  NewsScraper_new W;;
  print (nl ++ "1. Recent News for AAPL (first 3 articles):");;
  news ← scraper_get_company_news W "AAPL" (Given 3%Z);
  (if negb (df_empty news) then for_each (df_iterrows news) print_article
   else mret tt);;
  print (nl ++ "2. Recent SEC Filings for AAPL:");;
  filings ← scraper_get_sec_filings W "AAPL" Default (Given 3%Z);
  if negb (df_empty filings) then for_each (df_iterrows filings) print_filing
  else mret tt.

Definition example_alternative_data : M unit :=
  print (nl ++ str_mul "=" 60);;
  print "ALTERNATIVE DATA EXAMPLE";;
  print (str_mul "=" 60);;
  AlternativeDataScraper_new W;;
  print (nl ++ "1. Short Interest for AAPL:");;
  short_interest ← scraper_get_short_interest W "AAPL";
  print ("   Short Ratio: " ++ format_value (dict_get short_interest "short_ratio"));;
  print ("   Short % of Float: "
         ++ format_value (dict_get short_interest "short_percent_of_float"));;
  print (nl ++ "2. Top Institutional Holders for AAPL:");;
  institutional ← scraper_get_institutional_holdings W "AAPL";
  if negb (df_empty institutional) then print (df_repr (df_head 5 institutional))
  else mret tt.

(** What the script prints when an example has raised [e]. *)
Definition examples_failure (e : PyException) : M unit :=
  print (nl ++ "Error running examples: " ++ exc_str e);;
  emit (PrintExc e).

(** The five examples in the order the script runs them, and the lines
    that close a run without failure. *)
Definition examples_body : M unit :=
  example_stock_data;;
  example_fred_data W;;
  example_fundamental_data;;
  example_news_data;;
  example_alternative_data;;
  print (nl ++ str_mul "=" 60);;
  print "Examples completed successfully!";;
  print (str_mul "=" 60);;
  print (nl ++ "For more information, see README.md").

(** The [if __name__ == '__main__'] block of [example_usage.py]. *)
Definition example_usage_main : M unit :=
  print (nl ++ str_mul "=" 60);;
  print "STOCK AND MARKET ECONOMICS DATA SCRAPER";;
  print "EXAMPLE USAGE";;
  print (str_mul "=" 60);;
  try_except examples_body examples_failure.

End Examples.

Arguments example_stock_data {_ _} W.
Arguments example_fundamental_data {_ _} W.
Arguments example_news_data {_ _} W.
Arguments example_alternative_data {_ _} W.
Arguments examples_body {_ _} W.
Arguments example_usage_main {_ _} W.

(** ** Values to run the examples on *)

Module Scripts.

Import Fixture.

Inductive Val : Type :=
| VNone
| VInt (z : Z)
| VStr (s : string).

Definition lookup (key : string) (d : list (string * Val)) : option Val :=
  snd <$> List.find (fun entry => String.eqb (fst entry) key) d.

Definition type_error (message : string) : PyException :=
  {| exc_class := "TypeError"; exc_str := message; exc_is_Exception := true |}.

#[local] Instance pandas : Pandas := {|
  DataFrame := Table;
  Dict := list (string * Val);
  DataFrame_of_records ds :=
    {| header := match ds with d :: _ => map fst d | [] => [] end;
       rows := map (map (fun entry => match snd entry with
                                      | VNone => "None"
                                      | VInt z => pretty z
                                      | VStr s => s
                                      end)) ds |};
  df_empty t :=
    match header t, rows t with
    | [], _ | _, [] => true
    | _, _ => false
    end;
  df_len t := length (rows t);
  df_to_string _ index t := render index t;
  df_repr t := render true t;
  df_head n t := {| header := header t; rows := take n (rows t) |};
  df_tail n t := {| header := header t; rows := drop (length (rows t) - n) (rows t) |};
  default_options := {| max_columns := Some 20; width := Some 80; max_colwidth := Some 50 |}
|}.

#[local] Instance objects : PyObjects := {|
  Value := Val;
  Row := list (string * Val);
  py_None := VNone;
  dict_lookup d key := lookup key d;
  row_lookup r key := lookup key r;
  format_value v :=
    match v with
    | VNone => "None"
    | VInt z => pretty z
    | VStr s => s
    end;
  format_grouped v :=
    match v with
    | VInt z => Returned (pretty z)
    | VStr _ => Raised {| exc_class := "ValueError";
                          exc_str := "Cannot specify ',' with 's'.";
                          exc_is_Exception := true |}
    | VNone => Raised (type_error "unsupported format string passed to NoneType.__format__")
    end;
  add_one v :=
    match v with
    | VInt z => Returned (VInt (z + 1))
    | _ => Raised (type_error "unsupported operand type(s) for +")
    end;
  df_select columns t :=
    if forallb (fun c => existsb (String.eqb c) (header t)) columns
    then Returned {| header := columns; rows := rows t |}
    else Raised (KeyError "Volume");
  df_iterrows t :=
    imap (fun i r => (VInt (Z.of_nat i), zip (header t) (map VStr r))) (rows t)
|}.

Definition headlines : Table :=
  {| header := ["title"; "published_date"; "link"];
     rows := [["Apple ships"; "2024-01-02"; "https://example.org/a"]] |}.

(** News whose rows have no title column. *)
Definition untitled : Table :=
  {| header := ["published_date"; "link"];
     rows := [["2024-01-02"; "https://example.org/a"]] |}.

Definition priced_quote : list (string * Val) :=
  [("symbol", VStr "AAPL"); ("current_price", VInt 185)].

Definition fundamental_args (ratios metrics trend : bool) (output : option string)
  : FundamentalArgs :=
  {| fundamental_symbol := "AAPL"; fundamental_ratios := ratios;
     fundamental_metrics := metrics; fundamental_trend := trend;
     fundamental_output := output |}.

Definition alternative_args (short_interest institutional : bool)
    (output : option string) : AlternativeArgs :=
  {| alternative_symbol := "AAPL"; alternative_short_interest := short_interest;
     alternative_institutional := institutional; alternative_output := output |}.

Definition search_args (search : string) : FredArgs :=
  {| fred_series := Some "GDP"; fred_release_id := Some 52%Z; fred_start_date := None;
     fred_end_date := None; fred_search := Some search; fred_output := None |}.

(** A world for the examples: every constructor returns, a dictionary is
    fetched as [fetched_dict] and a table as [fetched_table]. *)
Definition world (fetched_dict : list (string * Val)) (fetched_table : Result Table)
  : @World pandas :=
  {| getenv := fun _ => None;
     new_StockScraper := Returned tt;
     new_FREDClient := fun _ => Returned tt;
     new_FundamentalScraper := Returned tt;
     new_NewsScraper := Returned tt;
     new_AlternativeDataScraper := Returned tt;
     get_real_time_quote := fun _ => Returned fetched_dict;
     get_intraday_data := fun _ => fetched_table;
     get_historical_data := fun _ _ _ _ => fetched_table;
     search_series := fun _ => fetched_table;
     get_release_observations := fun _ _ _ => fetched_table;
     get_series := fun _ _ _ => fetched_table;
     get_valuation_ratios := fun _ => Returned fetched_dict;
     get_key_metrics := fun _ => Returned fetched_dict;
     get_revenue_profit_trend := fun _ => fetched_table;
     get_financials := fun _ => Returned [];
     get_company_news := fun _ _ => fetched_table;
     get_sec_filings := fun _ _ _ => fetched_table;
     get_short_interest := fun _ => Returned fetched_dict;
     get_institutional_holdings := fun _ => fetched_table;
     to_csv := fun _ _ _ => Returned tt |}.

End Scripts.

(** * Properties *)

(** ** Output and loops never call out *)

Section Output.

Context `{Pandas}.

Lemma calls_app (t1 t2 : list Event) : calls (t1 ++ t2) = (calls t1 ++ calls t2)%list.
Proof. apply omap_app. Qed.

Lemma print_dataframe_returns (df : DataFrame) (title : string) :
  outcome (print_dataframe df title) = Returned tt.
Proof.
  unfold print_dataframe.
  destruct (truthy title); destruct (df_empty df); reflexivity.
Qed.

Lemma print_dataframe_calls (df : DataFrame) (title : string) :
  calls (trace (print_dataframe df title)) = [].
Proof.
  unfold print_dataframe.
  destruct (truthy title); destruct (df_empty df); reflexivity.
Qed.

Lemma for_each_returns {A} (l : list A) (body : A -> M unit) :
  (forall x, outcome (body x) = Returned tt) ->
  outcome (for_each l body) = Returned tt.
Proof.
  intros Hb. induction l as [|x l IH]; [reflexivity|].
  simpl. specialize (Hb x).
  destruct (body x) as [t r], (for_each l body) as [t' r'].
  simpl in *. subst. reflexivity.
Qed.

Lemma for_each_calls {A} (l : list A) (body : A -> M unit) :
  (forall x, outcome (body x) = Returned tt) ->
  (forall x, calls (trace (body x)) = []) ->
  calls (trace (for_each l body)) = [].
Proof.
  intros Hr Hc. induction l as [|x l IH]; [reflexivity|].
  simpl. specialize (Hr x). specialize (Hc x).
  destruct (body x) as [t r], (for_each l body) as [t' r'].
  simpl in *. subst. simpl. rewrite calls_app, Hc, IH. reflexivity.
Qed.

(** *** Truth value testing of optional arguments *)

Lemma given_str (o : option string) :
  given o = match o with Some (String _ _ as path) => Some path | _ => None end.
Proof. destruct o as [[|]|]; reflexivity. Qed.

Lemma given_none {A} `{Truthy A} (o : option A) : truthy o = false -> given o = None.
Proof.
  destruct o as [x|]; simpl; [|reflexivity].
  unfold truthy at 1. simpl. intros ->. reflexivity.
Qed.

Lemma given_some_inv {A} `{Truthy A} (o : option A) (x : A) :
  given o = Some x -> o = Some x /\ truthy x = true.
Proof.
  destruct o as [y|]; simpl; [|discriminate].
  destruct (truthy y) eqn:Hy; [|discriminate]. intros Heq. inversion Heq; subst. auto.
Qed.

Lemma given_some_str (s : string) : s <> "" -> given (Some s) = Some s.
Proof. destruct s; [congruence|reflexivity]. Qed.

(** *** Events that are no calls *)

Lemma quiet_cons ev (q : list Event) :
  calls (ev :: q) = [] -> (forall c r, ev <> Invoke c r) /\ calls q = [].
Proof.
  destruct ev; simpl; intros Hq; try discriminate; split; try assumption;
    intros; discriminate.
Qed.

Lemma quiet_not_in (q : list Event) c r : calls q = [] -> ~ In (Invoke c r) q.
Proof.
  induction q as [|ev q IH]; intros Hq; [intros []|].
  apply quiet_cons in Hq as [Hev Hq]. intros [Heq|Hin].
  - exact (Hev _ _ Heq).
  - exact (IH Hq Hin).
Qed.

Lemma after_raise_quiet (q t : list Event) :
  calls q = [] -> after_raise (q ++ t) = after_raise t.
Proof.
  induction q as [|ev q IH]; intros Hq; [reflexivity|].
  apply quiet_cons in Hq as [Hev Hq]. simpl.
  destruct ev as [| | | |c r]; auto. destruct (Hev c r eq_refl).
Qed.

Lemma after_raise_quiet_none (q : list Event) : calls q = [] -> after_raise q = None.
Proof.
  intros Hq. rewrite <- (app_nil_r q). rewrite after_raise_quiet by assumption.
  reflexivity.
Qed.

Lemma writes_follow_fetch_quiet seen (q t : list Event) :
  calls q = [] -> writes_follow_fetch seen (q ++ t) = writes_follow_fetch seen t.
Proof.
  induction q as [|ev q IH]; intros Hq; [reflexivity|].
  apply quiet_cons in Hq as [Hev Hq]. simpl.
  destruct ev as [| | | |c r]; auto. destruct (Hev c r eq_refl).
Qed.

Lemma writes_follow_fetch_quiet_true seen (q : list Event) :
  calls q = [] -> writes_follow_fetch seen q = true.
Proof.
  intros Hq. rewrite <- (app_nil_r q). rewrite writes_follow_fetch_quiet by assumption.
  reflexivity.
Qed.

(** *** Locating a call in a trace *)

Lemma after_raise_split (pre post : list Event) c e e' rest :
  after_raise (pre ++ Invoke c (Some e) :: post) = Some (e', rest) ->
  calls rest = [] ->
  e' = e /\ rest = post.
Proof.
  induction pre as [|ev pre IH]; simpl; intros Har Hq.
  - inversion Har. auto.
  - destruct ev as [| | | |c0 [e0|]]; auto.
    inversion Har; subst. rewrite calls_app in Hq. simpl in Hq.
    destruct (calls pre); discriminate.
Qed.

Lemma after_raise_some (pre post : list Event) c e :
  exists e' rest, after_raise (pre ++ Invoke c (Some e) :: post) = Some (e', rest).
Proof.
  induction pre as [|ev pre IH]; simpl; eauto.
  destruct ev as [| | | |c0 [e0|]]; eauto.
Qed.

Lemma writes_follow_fetch_split seen (pre post : list Event) c r :
  writes_follow_fetch seen (pre ++ Invoke c r :: post) = true ->
  is_to_csv c = true ->
  seen || fetch_returned pre = true.
Proof.
  revert seen. induction pre as [|ev pre IH]; simpl; intros seen Hw Hc.
  - rewrite Hc in Hw. apply andb_true_iff in Hw as [-> _]. reflexivity.
  - destruct ev as [| | | |c0 r0]; auto.
    destruct (is_to_csv c0) eqn:Hc0.
    + apply andb_true_iff in Hw as [-> _]. reflexivity.
    + apply IH in Hw; [|assumption].
      destruct seen; simpl in *; [reflexivity|].
      destruct r0; simpl in *; rewrite ?andb_false_r in *; simpl in *; try assumption.
      rewrite andb_true_r in Hw. assumption.
Qed.

(** *** The three kinds of call exclude each other *)

Lemma to_csv_not_fetch c : is_to_csv c = true -> is_fetch c = false.
Proof. destruct c; simpl; intros Hk; first [reflexivity | discriminate Hk]. Qed.

Lemma constructor_not_fetch c : is_constructor c = true -> is_fetch c = false.
Proof. destruct c; simpl; intros Hk; first [reflexivity | discriminate Hk]. Qed.

Lemma constructor_not_to_csv c : is_constructor c = true -> is_to_csv c = false.
Proof. destruct c; simpl; intros Hk; first [reflexivity | discriminate Hk]. Qed.

Lemma fetch_not_to_csv c : is_fetch c = true -> is_to_csv c = false.
Proof. destruct c; simpl; intros Hk; first [reflexivity | discriminate Hk]. Qed.

Lemma after_raise_in (t : list Event) e rest :
  after_raise t = Some (e, rest) -> exists c, In (Invoke c (Some e)) t.
Proof.
  induction t as [|ev t IH]; simpl; [discriminate|].
  destruct ev as [| | | |c [e0|]]; intros Har.
  1-4, 6: destruct (IH Har) as [c' Hin]; exists c'; right; exact Hin.
  inversion Har; subst. exists c. left. reflexivity.
Qed.

(** *** The report of a failure *)

Lemma failure_caught e :
  exc_is_Exception e = true ->
  failure e = [Print ("Error: " +:+ exc_str e); PrintExc e].
Proof. unfold failure. intros ->. reflexivity. Qed.

Lemma failure_propagated e : exc_is_Exception e = false -> failure e = [].
Proof. unfold failure. intros ->. reflexivity. Qed.

Lemma failure_quiet e : calls (failure e) = [].
Proof. unfold failure. destruct (exc_is_Exception e); reflexivity. Qed.

End Output.

(** ** Running the program symbolically *)

Ltac unfold_program :=
  unfold main, try_except, dispatch, handler,
    stock_command, stock_fetch, fred_command, fred_fetch, fundamental_command,
    news_command, sec_command, alternative_command,
    StockScraper_new, FREDClient_new, FundamentalScraper_new, NewsScraper_new,
    AlternativeDataScraper_new,
    scraper_get_real_time_quote, scraper_get_intraday_data,
    scraper_get_historical_data, fred_search_series,
    fred_get_release_observations, fred_get_series,
    scraper_get_valuation_ratios, scraper_get_key_metrics,
    scraper_get_revenue_profit_trend, scraper_get_financials,
    scraper_get_company_news, scraper_get_sec_filings,
    scraper_get_short_interest, scraper_get_institutional_holdings,
    df_to_csv, call, print, emit in *.

Ltac fields :=
  cbn [stock_symbol stock_quote stock_period stock_start_date stock_end_date
       stock_intraday stock_output
       fred_series fred_release_id fred_start_date fred_end_date fred_search
       fred_output
       fundamental_symbol fundamental_ratios fundamental_metrics fundamental_trend
       fundamental_output
       news_symbol news_limit news_output
       sec_symbol sec_filing_type sec_limit sec_output
       alternative_symbol alternative_short_interest alternative_institutional
       alternative_output] in *.

Ltac name_print_dataframe :=
  match goal with
  | |- context [print_dataframe ?df ?title] =>
      let t := fresh "shown" in
      let r := fresh "r" in
      let Hr := fresh "Hr" in
      let Hc := fresh "Hshown" in
      pose proof (print_dataframe_returns df title) as Hr;
      pose proof (print_dataframe_calls df title) as Hc;
      destruct (print_dataframe df title) as [t r];
      simpl in Hr, Hc; subst r
  end.

Ltac case_step :=
  match goal with
  | |- context [match ?x with Returned _ => _ | Raised _ => _ end] =>
      destruct x as [?|?] eqn:?
  | |- context [match given ?x with Some _ => _ | None => _ end] =>
      destruct (given x) as [?|] eqn:?
  | |- context [if ?b then _ else _] => destruct b eqn:?
  end;
  repeat match goal with u : unit |- _ => destruct u end.




Ltac name_for_each :=
  match goal with
  | |- context [for_each ?l ?body] =>
      let t := fresh "listed" in
      let r := fresh "r" in
      let Hr := fresh "Hr" in
      let Hc := fresh "Hlisted" in
      assert (outcome (for_each l body) = Returned tt) as Hr
        by (apply for_each_returns; intros [? [df|]]; simpl;
            try destruct (df_empty df); reflexivity);
      assert (calls (trace (for_each l body)) = []) as Hc
        by (apply for_each_calls; intros [? [df|]]; simpl;
            try destruct (df_empty df); reflexivity);
      destruct (for_each l body) as [t r];
      simpl in Hr, Hc; subst r
  end.

Ltac quiet :=
  rewrite ?calls_app; simpl;
  repeat match goal with
         | Hq : calls _ = [] |- _ => rewrite Hq
         end;
  reflexivity.

Ltac run :=
  repeat (simpl; first [name_print_dataframe | name_for_each | case_step]); simpl.

(** Cases on whether the exception of a report is one the [except]
    clause handles. *)
Ltac split_failure :=
  repeat match goal with
         | |- context [failure ?x] =>
             unfold failure; destruct (exc_is_Exception x) eqn:?
         | Hf : context [failure ?x] |- _ =>
             unfold failure in Hf; destruct (exc_is_Exception x) eqn:?
         end.

(** The report as it stands in a trace, folded back into [failure]. *)
Ltac fold_failure :=
  rewrite ?app_nil_r;
  repeat match goal with
         | Hb : exc_is_Exception ?x = true |- _ =>
             rewrite <- (failure_caught x Hb); clear Hb
         | Hb : exc_is_Exception ?x = false
           |- context [Invoke ?c (Some ?x) :: []] =>
             rewrite <- (failure_propagated x Hb) at 1; clear Hb
         end.

Ltac shape :=
  rewrite <- ?app_assoc; simpl; fold_failure;
  first
    [ solve [eapply shape_written; [reflexivity | reflexivity | quiet | reflexivity | quiet]]
    | solve [eapply shape_write_raised; [reflexivity | reflexivity | quiet | reflexivity]]
    | solve [eapply shape_fetch_raised; reflexivity]
    | solve [eapply shape_constructor_raised; reflexivity]
    | solve [eapply shape_fetched; [reflexivity | reflexivity | quiet]]
    | solve [eapply shape_no_fetch; [reflexivity | quiet]]
    | solve [eapply shape_output; quiet] ].

Ltac kinds :=
  repeat match goal with
         | Hc : is_constructor ?c = true |- _ =>
             pose proof (constructor_not_fetch c Hc);
             pose proof (constructor_not_to_csv c Hc); clear Hc
         | Hw : is_to_csv ?c = true |- _ =>
             pose proof (to_csv_not_fetch c Hw); revert Hw
         | Hf : is_fetch ?c = true |- _ =>
             pose proof (fetch_not_to_csv c Hf); revert Hf
         end; intros.

Ltac count :=
  unfold fetches, csv_writes;
  repeat (progress (simpl; rewrite ?calls_app;
                    repeat match goal with
                           | Hq : _ = _ |- _ => rewrite Hq
                           end)).

Ltac which_call :=
  simpl; intros;
  repeat match goal with
         | Hor : _ \/ _ |- _ => destruct Hor
         | Hf : False |- _ => destruct Hf
         | Hin : In _ (_ ++ _) |- _ => apply in_app_iff in Hin
         | Hin : In _ (_ :: _) |- _ => simpl in Hin
         | Hin : In _ [] |- _ => destruct Hin
         | Heq : _ = _ :> Call |- _ => first [discriminate Heq | inversion Heq; clear Heq; subst]
         end.

Ltac fetched_and_shown :=
  match goal with
  | |- context [match ?x with Returned _ => _ | Raised _ => _ end] =>
      destruct x as [?|?] eqn:?; simpl; [|discriminate]
  | _ => idtac
  end;
  match goal with
  | |- context [print_dataframe ?df ?title] =>
      let Hr := fresh "Hr" in
      let E := fresh "E" in
      pose proof (print_dataframe_returns df title) as Hr;
      destruct (print_dataframe df title) as [shown r] eqn:E;
      simpl in Hr; subst r; simpl;
      let Hd := fresh "Hd" in
      intros Hd; inversion Hd; subst;
      repeat case_step; simpl;
      repeat match goal with
             | |- exists _, _ => eexists
             end;
      repeat split; try rewrite E; simpl; rewrite <- ?app_assoc;
      try reflexivity
  end.

(** ** What every run looks like *)

Section Shapes.

Context `{Pandas}.

Lemma shape_after_raise t e rest :
  run_shape t -> after_raise t = Some (e, rest) -> rest = failure e.
Proof.
  intros Hs. destruct Hs;
    repeat (progress (simpl;
              rewrite ?after_raise_quiet, ?after_raise_quiet_none by assumption));
    intros Har; inversion Har; reflexivity.
Qed.

Lemma shape_fetches t : run_shape t -> length (fetches t) <= 1.
Proof. intros Hs. destruct Hs; split_failure; kinds; count; lia. Qed.

Lemma shape_constructors t :
  run_shape t -> length (List.filter is_constructor (calls t)) <= 1.
Proof.
  intros Hs. destruct Hs; split_failure; kinds; unfold is_constructor; count; lia.
Qed.

Lemma shape_writes_follow_fetch t : run_shape t -> writes_follow_fetch false t = true.
Proof.
  intros Hs. destruct Hs; split_failure; kinds;
    repeat (progress (simpl;
              rewrite ?writes_follow_fetch_quiet, ?writes_follow_fetch_quiet_true
                by assumption;
              repeat match goal with
                     | Hq : is_fetch _ = _ |- _ => rewrite Hq
                     | Hq : is_to_csv _ = _ |- _ => rewrite Hq
                     end));
    reflexivity.
Qed.

Lemma shape_raise_no_write t c e :
  run_shape t -> is_to_csv c = false -> In (Invoke c (Some e)) t -> csv_writes t = [].
Proof.
  intros Hs Hc Hin. destruct Hs; split_failure; kinds; count; try reflexivity; exfalso;
    simpl in Hin; rewrite ?in_app_iff in Hin; simpl in Hin;
    repeat match goal with
           | Hor : _ \/ _ |- _ => destruct Hor
           | Hf : False |- _ => destruct Hf
           | Heq : Invoke _ _ = Invoke _ _ |- _ => inversion Heq; clear Heq; subst
           | Heq : Print _ = Invoke _ _ |- _ => discriminate Heq
           | Heq : PrintExc _ = Invoke _ _ |- _ => discriminate Heq
           | Hq : calls ?q = [], Hi : In (Invoke _ _) ?q |- _ =>
               exact (quiet_not_in _ _ _ Hq Hi)
           end; congruence.
Qed.

Variable W : World.
Variable FRED_SERIES : gmap string string.

(** [main] returns to its caller unless a call raised an exception that
    is no instance of [Exception], which then is what [main] raises. *)
Lemma main_outcome args :
  outcome (main W FRED_SERIES args) =
    match after_raise (trace (main W FRED_SERIES args)) with
    | Some (e, _) => if exc_is_Exception e then Returned tt else Raised e
    | None => Returned tt
    end.
Proof.
  destruct args as [|a|a|a|a|a|a]; try destruct a; unfold_program;
    run; rewrite ?app_nil_r, <- ?app_assoc;
    repeat (progress (simpl;
              rewrite ?after_raise_quiet, ?after_raise_quiet_none by assumption));
    repeat match goal with
           | Hb : exc_is_Exception _ = _ |- _ => rewrite Hb in *
           end;
    first [reflexivity | discriminate].
Qed.

Lemma main_shape args : run_shape (trace (main W FRED_SERIES args)).
Proof.
  destruct args as [|a|a|a|a|a|a]; try destruct a; unfold_program;
    run; shape.
Qed.

(** ** The claims *)

(** C1, as amended.  For the stock, news and sec commands, once the
    constructor and the fetch have returned, the trace is: the two calls,
    the output of [print_dataframe] on the fetched table, and then a tail
    whose calls are exactly one [to_csv(path, index=False)] of that table
    when [--output] holds a non-empty path, and none when [--output] is
    absent or the empty string.  Whether the table is empty plays no
    part. *)
Theorem output_written_when_path_given :
  (forall a data,
      new_StockScraper W = Returned tt ->
      outcome (stock_fetch W a) = Returned data ->
      exists f title back,
        is_fetch f = true /\
        trace (main W FRED_SERIES (stock a)) =
          (Invoke New_StockScraper None :: Invoke f None ::
           trace (print_dataframe data title) ++ back)%list /\
        calls back =
          match stock_output a with
          | Some (String _ _ as path) => [To_csv data path false]
          | _ => []
          end) /\
  (forall a data,
      new_NewsScraper W = Returned tt ->
      get_company_news W (news_symbol a) (Given (news_limit a)) = Returned data ->
      exists back,
        trace (main W FRED_SERIES (news a)) =
          (Invoke New_NewsScraper None ::
           Invoke (Get_company_news (news_symbol a) (Given (news_limit a))) None ::
           trace (print_dataframe data ("Company News: " +:+ news_symbol a)) ++ back)%list /\
        calls back =
          match news_output a with
          | Some (String _ _ as path) => [To_csv data path false]
          | _ => []
          end) /\
  (forall a data,
      new_NewsScraper W = Returned tt ->
      get_sec_filings W (sec_symbol a) (Given (sec_filing_type a)) (Given (sec_limit a)) =
        Returned data ->
      exists back,
        trace (main W FRED_SERIES (sec a)) =
          (Invoke New_NewsScraper None ::
           Invoke (Get_sec_filings (sec_symbol a) (Given (sec_filing_type a))
                     (Given (sec_limit a))) None ::
           trace (print_dataframe data ("SEC Filings: " +:+ sec_symbol a)) ++ back)%list /\
        calls back =
          match sec_output a with
          | Some (String _ _ as path) => [To_csv data path false]
          | _ => []
          end).
Proof.
  split; [|split].
  - intros [symbol quote period start_date end_date intraday output] data Hnew.
    unfold_program. fields. rewrite Hnew, given_str.
    destruct output as [[|? ?]|], quote, intraday; simpl; fetched_and_shown.
    all: reflexivity.
  - intros [symbol limit output] data Hnew Hdata.
    unfold_program. fields. rewrite Hnew, Hdata, given_str.
    destruct output as [[|? ?]|]; simpl;
      generalize (eq_refl (Returned (A:=DataFrame) data)); fetched_and_shown.
    all: reflexivity.
  - intros [symbol filing_type limit output] data Hnew Hdata.
    unfold_program. fields. rewrite Hnew, Hdata, given_str.
    destruct output as [[|? ?]|]; simpl;
      generalize (eq_refl (Returned (A:=DataFrame) data)); fetched_and_shown.
    all: reflexivity.
Qed.

(** C2.  For the fred command, a CSV file is written only when [--output]
    was supplied and the fetched table is not empty: every [to_csv] call
    of a run has the [--output] path, [index=False] and a non-empty table
    that the fetch returned.  Once the client is built and the fetch has
    returned [data], the calls after the fetch are that one write when
    the path is non-empty and [data] has rows, and none when [data] is
    empty. *)
Theorem fred_output_needs_rows a :
  (forall df path index,
      In (To_csv df path index) (calls (trace (main W FRED_SERIES (fred a)))) ->
      fred_output a = Some path /\ path <> "" /\ index = false /\
      df_empty df = false /\
      outcome (fred_fetch W FRED_SERIES a) = Returned (Some df)) /\
  (forall data,
      new_FREDClient W (Given (getenv W "FRED_API_KEY")) = Returned tt ->
      outcome (fred_fetch W FRED_SERIES a) = Returned (Some data) ->
      exists back,
        trace (main W FRED_SERIES (fred a)) =
          (Invoke (New_FREDClient (Given (getenv W "FRED_API_KEY"))) None ::
           trace (fred_fetch W FRED_SERIES a) ++ back)%list /\
        calls back =
          match fred_output a with
          | Some (String _ _ as path) =>
              if df_empty data then [] else [To_csv data path false]
          | _ => []
          end).
Proof.
  destruct a as [series release_id start_date end_date search output]. split.
  - intros df path index. unfold_program. fields. rewrite given_str.
    destruct output as [[|? ?]|]; run; count; which_call.
    all: repeat split; try assumption; try reflexivity; try discriminate.
    all: apply negb_true_iff; assumption.
  - intros data Hnew. unfold main, try_except, dispatch, handler, fred_command,
      FREDClient_new, df_to_csv, call, print, emit. fields. rewrite Hnew, given_str.
    destruct (fred_fetch _ _ _) as [t r]. simpl. intros ->.
    destruct output as [[|? ?]|], (df_empty data); run; rewrite <- ?app_assoc;
      eexists; split; reflexivity.
Qed.

(** C3.  [print_dataframe] returns, and the lines it prints are: the
    three banner lines around the title exactly when the title is not
    empty; then "No data available." alone when the table is empty, and
    otherwise the table rendered without its index followed by the line
    "Rows: N" with N the number of rows. *)
Theorem print_dataframe_output (df : DataFrame) (title : string) :
  outcome (print_dataframe df title) = Returned tt /\
  printed (trace (print_dataframe df title)) =
    ((match title with
      | EmptyString => []
      | _ => [nl +:+ str_mul "=" 60; title; str_mul "=" 60]
      end) ++
     (if df_empty df then ["No data available."]
      else [df_to_string print_options false df;
            nl +:+ "Rows: " +:+ pretty (df_len df)]))%list.
Proof.
  split; [apply print_dataframe_returns|].
  unfold print_dataframe. destruct title; destruct (df_empty df); reflexivity.
Qed.

(** C4.  In the series branch of the fred command (no search text, no
    release id, a non-empty [--series]), once the client is built the one
    fetch is [get_series] on the [FRED_SERIES] entry of the upper-cased
    argument when there is one and on the argument itself otherwise, with
    [--start-date] and [--end-date] as parsed. *)
Theorem fred_series_lookup a series :
  truthy (fred_search a) = false ->
  truthy (fred_release_id a) = false ->
  fred_series a = Some series ->
  series <> "" ->
  new_FREDClient W (Given (getenv W "FRED_API_KEY")) = Returned tt ->
  fetches (trace (main W FRED_SERIES (fred a))) =
    [Get_series
       (match FRED_SERIES !! upper series with
        | Some series_id => series_id
        | None => series
        end)
       (Given (fred_start_date a)) (Given (fred_end_date a))].
Proof.
  intros Hsearch Hrelease Hseries Hne Hnew.
  destruct a as [ser rid start_date end_date search output]. simpl in *. subst ser.
  unfold_program. fields. rewrite Hnew.
  rewrite (given_none _ Hsearch), (given_none _ Hrelease), (given_some_str _ Hne).
  unfold resolve_series, default.
  run; count; reflexivity.
Qed.

(** C5, as amended.  No call of [get_release_observations] made by [main]
    or by [example_fred_data] passes a pagination cursor: [main] calls it
    with the parsed release id alone, [example_fred_data] with release 52
    and a limit of 10 or 5, and [next_cursor] is left at its default in
    all of them. *)
Theorem release_observations_without_cursor :
  (forall args release_id limit next_cursor,
      In (Get_release_observations release_id limit next_cursor)
         (calls (trace (main W FRED_SERIES args))) ->
      next_cursor = Default /\ limit = Default /\
      exists a, args = fred a /\ fred_release_id a = Some release_id) /\
  (forall release_id limit next_cursor,
      In (Get_release_observations release_id limit next_cursor)
         (calls (trace (example_fred_data W))) ->
      next_cursor = Default /\ release_id = 52%Z /\
      (limit = Given 10%Z \/ limit = Given 5%Z)).
Proof.
  split.
  - intros args release_id limit next_cursor.
    destruct args as [|a|a|a|a|a|a]; try destruct a; unfold_program; fields;
      run; count; which_call.
    all: repeat split; eexists; split; [reflexivity|]; simpl.
    all: match goal with
         | Hg : given _ = Some _ |- _ = Some _ => exact (proj1 (given_some_inv _ _ Hg))
         end.
  - intros release_id limit next_cursor. unfold example_fred_data.
    unfold_program. run; count; which_call.
    all: repeat split; auto.
Qed.

(** C6, as amended.  In every run at most one fetch method and at most
    one constructor are called.  Wherever a call raises an instance of
    [Exception], what follows it in the trace is the line
    "Error: <message>" and the traceback, and nothing else; wherever a
    call raises another exception, nothing follows it.  In both cases no
    call is made again. *)
Theorem single_fetch_no_retry args :
  length (fetches (trace (main W FRED_SERIES args))) <= 1 /\
  length (List.filter is_constructor (calls (trace (main W FRED_SERIES args)))) <= 1 /\
  forall pre c e post,
    trace (main W FRED_SERIES args) = (pre ++ Invoke c (Some e) :: post)%list ->
    post = if exc_is_Exception e
           then [Print ("Error: " +:+ exc_str e); PrintExc e]
           else [].
Proof.
  pose proof (main_shape args) as Hs. split; [|split].
  - apply shape_fetches, Hs.
  - apply shape_constructors, Hs.
  - intros pre c e post Ht. rewrite Ht in Hs.
    destruct (after_raise_some pre post c e) as (e' & rest & Har).
    pose proof (shape_after_raise _ _ _ Hs Har) as Hrest. subst rest.
    destruct (after_raise_split _ _ _ _ _ _ Har (failure_quiet e')) as [-> <-].
    reflexivity.
Qed.

(** C7, as amended.  For every command: when a call raises an instance
    of [Exception], it is caught and [main] returns normally, and when a
    call raises another exception, [main] raises it to its caller; when a
    constructor or a fetch raises, the run writes no CSV file; every
    [to_csv] call comes after a fetch that returned; and when no call
    raises, [main] returns normally. *)
Theorem failure_is_caught_before_any_write args :
  (forall pre c e post,
      trace (main W FRED_SERIES args) = (pre ++ Invoke c (Some e) :: post)%list ->
      outcome (main W FRED_SERIES args) =
        if exc_is_Exception e then Returned tt else Raised e) /\
  (forall c e,
      is_to_csv c = false ->
      In (Invoke c (Some e)) (trace (main W FRED_SERIES args)) ->
      csv_writes (trace (main W FRED_SERIES args)) = []) /\
  (forall pre c r post,
      trace (main W FRED_SERIES args) = (pre ++ Invoke c r :: post)%list ->
      is_to_csv c = true ->
      fetch_returned pre = true) /\
  ((forall c e, ~ In (Invoke c (Some e)) (trace (main W FRED_SERIES args))) ->
   outcome (main W FRED_SERIES args) = Returned tt).
Proof.
  pose proof (main_shape args) as Hs. split; [|split; [|split]].
  - intros pre c e post Ht. rewrite main_outcome.
    destruct (after_raise_some pre post c e) as (e' & rest & Har).
    rewrite <- Ht in Har. rewrite Har.
    pose proof (shape_after_raise _ _ _ Hs Har) as Hrest. subst rest.
    rewrite Ht in Har.
    destruct (after_raise_split _ _ _ _ _ _ Har (failure_quiet e')) as [-> _].
    reflexivity.
  - intros c e Hc Hin. exact (shape_raise_no_write _ _ _ Hs Hc Hin).
  - intros pre c r post Ht Hc. apply shape_writes_follow_fetch in Hs.
    rewrite Ht in Hs. exact (writes_follow_fetch_split _ _ _ _ _ Hs Hc).
  - intros Hnone. rewrite main_outcome.
    destruct (after_raise (trace (main W FRED_SERIES args))) as [[e rest]|] eqn:Har;
      [|reflexivity].
    destruct (after_raise_in _ _ _ Har) as [c Hin]. destruct (Hnone c e Hin).
Qed.

(** C8.  A run of the fred command with [--release-id 0] is the run with
    [--release-id] absent.  With a non-empty [--series] and no search
    text it fetches that series; with neither it calls no method of the
    client and writes no file, and once the client is built all it does
    is print "Please specify --series, --release-id, or --search". *)
Theorem release_id_zero_as_absent a :
  main W FRED_SERIES (fred (with_release_id (Some 0%Z) a)) =
    main W FRED_SERIES (fred (with_release_id None a)) /\
  (forall series,
      truthy (fred_search a) = false -> fred_series a = Some series -> series <> "" ->
      new_FREDClient W (Given (getenv W "FRED_API_KEY")) = Returned tt ->
      fetches (trace (main W FRED_SERIES (fred (with_release_id (Some 0%Z) a)))) =
        [Get_series
           (match FRED_SERIES !! upper series with
            | Some series_id => series_id
            | None => series
            end)
           (Given (fred_start_date a)) (Given (fred_end_date a))]) /\
  (truthy (fred_search a) = false -> truthy (fred_series a) = false ->
     fetches (trace (main W FRED_SERIES (fred (with_release_id (Some 0%Z) a)))) = [] /\
     csv_writes (trace (main W FRED_SERIES (fred (with_release_id (Some 0%Z) a)))) = [] /\
     (new_FREDClient W (Given (getenv W "FRED_API_KEY")) = Returned tt ->
        trace (main W FRED_SERIES (fred (with_release_id (Some 0%Z) a))) =
          [Invoke (New_FREDClient (Given (getenv W "FRED_API_KEY"))) None;
           Print "Please specify --series, --release-id, or --search"])).
Proof.
  destruct a as [ser rid start_date end_date search output]. simpl.
  split; [reflexivity|split].
  - intros series Hsearch -> Hne Hnew.
    unfold with_release_id. unfold_program. fields. rewrite Hnew.
    rewrite (given_none _ Hsearch), (given_some_str _ Hne).
    unfold resolve_series, default.
    run; count; reflexivity.
  - intros Hsearch Hseries.
    unfold with_release_id. unfold_program. fields.
    rewrite (given_none _ Hsearch), (given_none _ Hseries).
    repeat split; [run; count; reflexivity .. |].
    intros ->. reflexivity.
Qed.

(** C9.  For the stock command, once the scraper is built: with [--quote]
    the one fetch is the real-time quote, whatever [--intraday] is;
    without [--quote] and with [--intraday] it is the intraday data; with
    neither it is the historical data for the parsed start date, end date
    and period; the historical data is fetched in no other case; and the
    period is '1y' when [--period] is not given. *)
Theorem stock_modes a :
  new_StockScraper W = Returned tt ->
  (stock_quote a = true ->
     fetches (trace (main W FRED_SERIES (stock a))) =
       [Get_real_time_quote (stock_symbol a)]) /\
  (stock_quote a = false -> stock_intraday a = true ->
     fetches (trace (main W FRED_SERIES (stock a))) =
       [Get_intraday_data (stock_symbol a)]) /\
  (stock_quote a = false -> stock_intraday a = false ->
     fetches (trace (main W FRED_SERIES (stock a))) =
       [Get_historical_data (stock_symbol a) (Given (stock_start_date a))
          (Given (stock_end_date a)) (stock_period a)]) /\
  (forall symbol start_date end_date period,
      In (Get_historical_data symbol start_date end_date period)
         (fetches (trace (main W FRED_SERIES (stock a)))) ->
      stock_quote a = false /\ stock_intraday a = false) /\
  stock_period (stock_parser_defaults (stock_symbol a)) = "1y".
Proof.
  intros Hnew. destruct a as [symbol quote period start_date end_date intraday output].
  simpl. split; [|split; [|split; [|split]]].
  - intros ->. unfold_program. fields. rewrite Hnew. run; count; reflexivity.
  - intros -> ->. unfold_program. fields. rewrite Hnew. run; count; reflexivity.
  - intros -> ->. unfold_program. fields. rewrite Hnew. run; count; reflexivity.
  - intros sym first last span. unfold_program. fields. rewrite Hnew.
    destruct quote, intraday; run; count; which_call; split; reflexivity.
  - reflexivity.
Qed.

End Shapes.

(** ** The claims on the fixture *)

Import Fixture.

(** C1 as stated fails: [news --symbol AAPL --output ""] supplies
    [--output], the fetch returns a table with rows, and no file is
    written. *)
Lemma output_given_as_empty_path_not_written :
  ~ (news_output (news_args (Some "")) <> None <->
     csv_writes (trace (main (world (Returned prices)) series_table
                          (news (news_args (Some ""))))) <> []).
Proof. intros [Hwritten _]. apply Hwritten; [discriminate | reflexivity]. Qed.

(** With a path, the table is written even though it has no rows. *)
Lemma output_written_when_path_given_witness :
  exists back,
    trace (main (world (Returned no_rows)) series_table (news (news_args (Some "out.csv")))) =
      (Invoke New_NewsScraper None ::
       Invoke (Get_company_news "AAPL" (Given 20%Z)) None ::
       trace (print_dataframe no_rows "Company News: AAPL") ++ back)%list /\
    calls back = [To_csv no_rows "out.csv" false].
Proof.
  exact (proj1 (proj2 (output_written_when_path_given (world (Returned no_rows)) series_table))
           (news_args (Some "out.csv")) no_rows eq_refl eq_refl).
Defined.

(** [fred --series GDP --output o.csv] on a series without observations
    writes nothing. *)
Lemma fred_output_needs_rows_witness :
  exists back,
    trace (main (world (Returned no_rows)) series_table (fred (series_args "GDP"))) =
      (Invoke (New_FREDClient (Given (Some "key"))) None ::
       trace (fred_fetch (world (Returned no_rows)) series_table (series_args "GDP")) ++
       back)%list /\
    calls back = [].
Proof.
  exact (proj2 (fred_output_needs_rows (world (Returned no_rows)) series_table
                  (series_args "GDP"))
           no_rows eq_refl eq_refl).
Defined.

Example print_dataframe_prices :
  printed (trace (print_dataframe prices "Prices")) =
    [nl +:+ "============================================================";
     "Prices";
     "============================================================";
     "Date Close" +:+ nl +:+ "2024-01-02 185.64" +:+ nl +:+ "2024-01-03 184.25";
     nl +:+ "Rows: 2"].
Proof. reflexivity. Qed.

Example print_dataframe_untitled_empty :
  printed (trace (print_dataframe no_rows "")) = ["No data available."].
Proof. reflexivity. Qed.

(** [--series unemployment] is fetched as UNRATE. *)
Lemma fred_series_lookup_witness :
  fetches (trace (main (world (Returned prices)) series_table
                    (fred (series_args "unemployment")))) =
    [Get_series "UNRATE" (Given None) (Given None)].
Proof.
  exact (fred_series_lookup (world (Returned prices)) series_table
           (series_args "unemployment") "unemployment"
           eq_refl eq_refl eq_refl ltac:(discriminate) eq_refl).
Defined.

(** A series id that is no key of the table goes through as typed. *)
Example fred_series_unknown_key :
  fetches (trace (main (world (Returned prices)) series_table (fred (series_args "dgs10")))) =
    [Get_series "dgs10" (Given None) (Given None)].
Proof. reflexivity. Qed.

(** C5 as stated fails: the run of [fred --release-id 52] hands no cursor
    to [get_release_observations]. *)
Lemma release_52_is_called_without_cursor :
  ~ exists limit cursor,
      In (Get_release_observations 52 limit (Given cursor))
         (calls (trace (main (world (Returned prices)) series_table
                          (fred (with_release_id (Some 52%Z) fred_args))))).
Proof.
  intros (limit & cursor & Hin). simpl in Hin.
  destruct Hin as [Heq|[Heq|[]]]; discriminate Heq.
Qed.

Lemma release_observations_without_cursor_witness :
  In (Get_release_observations 52 Default Default)
     (calls (trace (main (world (Returned prices)) series_table
                      (fred (with_release_id (Some 52%Z) fred_args))))) /\
  (@Default string = Default /\ @Default Z = Default /\
   exists a, fred (with_release_id (Some 52%Z) fred_args) = fred a /\
             fred_release_id a = Some 52%Z).
Proof.
  split; [simpl; auto|].
  apply (proj1 (release_observations_without_cursor (world (Returned prices)) series_table)).
  simpl; auto.
Defined.

(** The cursor of the example is text in a printed hint. *)
Example example_fred_data_calls :
  calls (trace (example_fred_data (world (Returned prices)))) =
    [New_FREDClient Default;
     Get_series "GDP" (Given (Some "2019-01-01")) Default;
     Get_release_observations 52 (Given 10%Z) Default;
     Get_release_observations 52 (Given 5%Z) Default].
Proof. reflexivity. Qed.

(** A fetch that fails with HTTP 500. *)
Lemma single_fetch_no_retry_witness :
  trace (main (world (Raised http_error)) series_table (news (news_args None))) =
    ([Invoke New_NewsScraper None] ++
     Invoke (Get_company_news "AAPL" (Given 20%Z)) (Some http_error) ::
     [Print "Error: HTTP 500"; PrintExc http_error])%list /\
  [Print "Error: HTTP 500"; PrintExc http_error] =
    [Print ("Error: " +:+ exc_str http_error); PrintExc http_error].
Proof.
  split; [reflexivity|].
  exact (proj2 (proj2 (single_fetch_no_retry (world (Raised http_error)) series_table
                         (news (news_args None))))
           [Invoke New_NewsScraper None] (Get_company_news "AAPL" (Given 20%Z))
           http_error [Print "Error: HTTP 500"; PrintExc http_error] eq_refl).
Defined.

(** C6 as stated fails: a fetch interrupted by Ctrl-C is followed by no
    "Error:" line and no traceback of [main]. *)
Lemma interrupted_fetch_is_not_reported :
  ~ (forall pre c e post,
        trace (main (world (Raised interrupt)) series_table (news (news_args None))) =
          (pre ++ Invoke c (Some e) :: post)%list ->
        post = [Print ("Error: " +:+ exc_str e); PrintExc e]).
Proof.
  intros Hreport.
  specialize (Hreport [Invoke New_NewsScraper None]
                (Get_company_news "AAPL" (Given 20%Z)) interrupt [] eq_refl).
  discriminate Hreport.
Qed.

(** C7 as stated fails: the interrupt is not caught inside [main]. *)
Lemma interrupted_fetch_leaves_main :
  outcome (main (world (Raised interrupt)) series_table (news (news_args None))) =
    Raised interrupt /\
  ~ outcome (main (world (Raised interrupt)) series_table (news (news_args None))) =
      Returned tt.
Proof. split; [reflexivity | discriminate]. Qed.

Lemma failure_is_caught_before_any_write_witness :
  In (Invoke (Get_company_news "AAPL" (Given 20%Z)) (Some http_error))
     (trace (main (world (Raised http_error)) series_table
               (news (news_args (Some "out.csv"))))) /\
  csv_writes (trace (main (world (Raised http_error)) series_table
                       (news (news_args (Some "out.csv"))))) = [] /\
  outcome (main (world (Raised http_error)) series_table
             (news (news_args (Some "out.csv")))) = Returned tt.
Proof.
  split; [simpl; auto|]. split.
  - apply (proj1 (proj2 (failure_is_caught_before_any_write (world (Raised http_error))
                           series_table (news (news_args (Some "out.csv")))))
             (Get_company_news "AAPL" (Given 20%Z)) http_error eq_refl).
    simpl; auto.
  - exact (proj1 (failure_is_caught_before_any_write (world (Raised http_error))
                    series_table (news (news_args (Some "out.csv"))))
             [Invoke New_NewsScraper None] (Get_company_news "AAPL" (Given 20%Z))
             http_error [Print "Error: HTTP 500"; PrintExc http_error] eq_refl).
Defined.

(** [fred --release-id 0] with nothing else. *)
Lemma release_id_zero_as_absent_witness :
  trace (main (world (Returned prices)) series_table
           (fred (with_release_id (Some 0%Z) fred_args))) =
    [Invoke (New_FREDClient (Given (Some "key"))) None;
     Print "Please specify --series, --release-id, or --search"].
Proof.
  exact (proj2 (proj2 (proj2 (proj2 (release_id_zero_as_absent (world (Returned prices))
                                        series_table fred_args))
                               eq_refl eq_refl))
           eq_refl).
Defined.

(** [stock --symbol AAPL] alone fetches one year of history. *)
Lemma stock_modes_witness :
  fetches (trace (main (world (Returned prices)) series_table
                    (stock (stock_parser_defaults "AAPL")))) =
    [Get_historical_data "AAPL" (Given None) (Given None) "1y"].
Proof.
  exact (proj1 (proj2 (proj2 (stock_modes (world (Returned prices)) series_table
                                (stock_parser_defaults "AAPL") eq_refl)))
           eq_refl eq_refl).
Defined.

(** [--quote] wins over [--intraday]. *)
Example stock_quote_and_intraday :
  fetches (trace (main (world (Returned prices)) series_table
                    (stock {| stock_symbol := "AAPL"; stock_quote := true;
                              stock_period := "1y"; stock_start_date := None;
                              stock_end_date := None; stock_intraday := true;
                              stock_output := None |}))) =
    [Get_real_time_quote "AAPL"].
Proof. reflexivity. Qed.

(** * Further properties of [main.py] *)

Section MoreOfMain.

Context `{Pandas}.
Variable W : World.
Variable FRED_SERIES : gmap string string.

(** X1.  For the fundamental command, once the scraper is built, the one
    fetch is chosen by the first flag that is set, in the order
    [--ratios], [--metrics], [--trend]; with no flag it is the financial
    statements. *)
Theorem fundamental_modes a :
  new_FundamentalScraper W = Returned tt ->
  fetches (trace (main W FRED_SERIES (fundamental a))) =
    [if fundamental_ratios a then Get_valuation_ratios (fundamental_symbol a)
     else if fundamental_metrics a then Get_key_metrics (fundamental_symbol a)
     else if fundamental_trend a then Get_revenue_profit_trend (fundamental_symbol a)
     else Get_financials (fundamental_symbol a)].
Proof.
  intros Hnew. destruct a as [symbol ratios metrics trend output].
  unfold_program. fields. rewrite Hnew.
  destruct ratios, metrics, trend; run; count; reflexivity.
Qed.

(** X2.  The financial-statements branch of the fundamental command (no
    flag given) never writes a CSV file, whatever [--output] holds. *)
Theorem financial_statements_not_written a :
  fundamental_ratios a = false ->
  fundamental_metrics a = false ->
  fundamental_trend a = false ->
  csv_writes (trace (main W FRED_SERIES (fundamental a))) = [].
Proof.
  destruct a as [symbol ratios metrics trend output]. simpl. intros -> -> ->.
  unfold_program. fields. run; count; reflexivity.
Qed.

(** X3.  For the alternative command, once the scraper is built,
    [--short-interest] wins over [--institutional]; with neither flag
    nothing is fetched and the run is the constructor call followed by
    the line "Please specify --short-interest or --institutional",
    whatever [--output] holds. *)
Theorem alternative_modes a :
  new_AlternativeDataScraper W = Returned tt ->
  fetches (trace (main W FRED_SERIES (alternative a))) =
    (if alternative_short_interest a then [Get_short_interest (alternative_symbol a)]
     else if alternative_institutional a
          then [Get_institutional_holdings (alternative_symbol a)]
          else []) /\
  (alternative_short_interest a = false -> alternative_institutional a = false ->
   trace (main W FRED_SERIES (alternative a)) =
     [Invoke New_AlternativeDataScraper None;
      Print "Please specify --short-interest or --institutional"]).
Proof.
  intros Hnew. destruct a as [symbol short_interest institutional output].
  unfold_program. fields. rewrite Hnew. split.
  - destruct short_interest, institutional; run; count; reflexivity.
  - intros -> ->. reflexivity.
Qed.

(** X4.  Every run with a command calls exactly one constructor, that of
    its command (the sec command builds a [NewsScraper], the fred command
    a [FREDClient] with the value of [FRED_API_KEY]); a run without
    command calls none. *)
Theorem constructor_of_command args :
  List.filter is_constructor (calls (trace (main W FRED_SERIES args))) =
    match scraper_constructor W args with
    | Some c => [c]
    | None => []
    end.
Proof.
  destruct args as [|a|a|a|a|a|a]; try destruct a; unfold_program; fields;
    run; unfold is_constructor; count; reflexivity.
Qed.

(** X5.  For the fred command, once the client is built, a non-empty
    [--search] is the one fetch whatever [--release-id] and [--series]
    are; without search text a non-zero [--release-id] is fetched with
    the release id as the only argument, whatever [--series] is. *)
Theorem fred_branch_priority a :
  new_FREDClient W (Given (getenv W "FRED_API_KEY")) = Returned tt ->
  (forall search,
      fred_search a = Some search -> search <> "" ->
      fetches (trace (main W FRED_SERIES (fred a))) = [Search_series search]) /\
  (forall release_id,
      truthy (fred_search a) = false ->
      fred_release_id a = Some release_id -> release_id <> 0%Z ->
      fetches (trace (main W FRED_SERIES (fred a))) =
        [Get_release_observations release_id Default Default]).
Proof.
  intros Hnew. destruct a as [series release start_date end_date search output].
  split.
  - intros q Hq Hne. simpl in Hq. subst search.
    unfold_program. fields. rewrite Hnew, (given_some_str _ Hne).
    run; count; reflexivity.
  - intros r Hsearch Hr Hne. simpl in Hr. subst release.
    unfold_program. fields. rewrite Hnew, (given_none _ Hsearch).
    assert (given (Some r) = Some r) as ->.
    { unfold given, truthy, truthy_int. destruct (Z.eqb_spec r 0); [contradiction|reflexivity]. }
    run; count; reflexivity.
Qed.

(** X6.  A run writes at most one CSV file, and every write goes to the
    path given by [--output], which is not empty, with [index=False]. *)
Theorem every_write_goes_to_output args :
  length (csv_writes (trace (main W FRED_SERIES args))) <= 1 /\
  forall df path index,
    In (To_csv df path index) (calls (trace (main W FRED_SERIES args))) ->
    output_of args = Some path /\ path <> "" /\ index = false.
Proof.
  split.
  - pose proof (main_shape W FRED_SERIES args) as Hs.
    destruct Hs; split_failure; kinds; count; lia.
  - intros table path index.
    destruct args as [|a|a|a|a|a|a]; try destruct a; unfold_program; fields;
      rewrite ?given_str;
      repeat match goal with
             | |- context [match ?o with Some _ => _ | None => _ end] =>
                 is_var o; destruct o as [[|? ?]|]
             end;
      run; count; which_call; repeat split; first [reflexivity | discriminate].
Qed.

(** X7.  Every fetch of a run is made for the symbol as parsed: the
    symbol is never changed on its way to a scraper (and the fetches of
    the fred command take no symbol). *)
Theorem symbol_is_passed_as_given args c :
  In c (fetches (trace (main W FRED_SERIES args))) ->
  call_symbol c = symbol_of args.
Proof.
  destruct args as [|a|a|a|a|a|a]; try destruct a; unfold_program; fields;
    run; count; which_call; reflexivity.
Qed.

(** X8.  [--output] only adds to a run: the run without [--output] is a
    prefix of the run with it, and what comes after holds no fetch and no
    constructor call. *)
Theorem output_only_adds_the_write args :
  exists back,
    trace (main W FRED_SERIES args) =
      (trace (main W FRED_SERIES (without_output args)) ++ back)%list /\
    fetches back = [] /\
    List.filter is_constructor (calls back) = [].
Proof.
  destruct args as [|a|a|a|a|a|a]; try destruct a; unfold without_output;
    unfold_program; fields; rewrite ?given_str;
    repeat match goal with
           | |- context [match ?o with Some _ => _ | None => _ end] =>
               is_var o; destruct o as [[|? ?]|]
           end;
    run; rewrite ?app_nil_r, <- ?app_assoc; simpl.
  all: try (exists []; rewrite ?app_nil_r; split; [reflexivity|]; split; reflexivity).
  all: eexists; (split; [reflexivity|]); split; reflexivity.
Qed.

Lemma after_write_quiet (q t : list Event) :
  calls q = [] -> after_write (q ++ t) = after_write t.
Proof.
  induction q as [|ev q IH]; intros Hq; [reflexivity|].
  apply quiet_cons in Hq as [Hev Hq]. simpl.
  destruct ev as [| | | |c r]; auto. destruct (Hev c r eq_refl).
Qed.

Lemma after_write_quiet_none (q : list Event) : calls q = [] -> after_write q = None.
Proof.
  intros Hq. rewrite <- (app_nil_r q). rewrite after_write_quiet by assumption.
  reflexivity.
Qed.

Lemma after_write_split (pre post : list Event) c r c' r' rest :
  after_write (pre ++ Invoke c r :: post) = Some (c', r', rest) ->
  is_to_csv c = true ->
  csv_writes rest = [] ->
  c' = c /\ r' = r /\ rest = post.
Proof.
  intros Haw Hc. induction pre as [|ev pre IH]; simpl in Haw; intros Hrest.
  - rewrite Hc in Haw. inversion Haw. auto.
  - destruct ev as [| | | |c0 r0]; auto.
    destruct (is_to_csv c0) eqn:Hc0; auto.
    inversion Haw; subst. unfold csv_writes in Hrest.
    rewrite calls_app, List.filter_app in Hrest. simpl in Hrest. rewrite Hc in Hrest.
    destruct (List.filter is_to_csv (calls pre)); discriminate.
Qed.

Lemma after_write_some (pre post : list Event) c r :
  is_to_csv c = true ->
  exists c' r' rest, after_write (pre ++ Invoke c r :: post) = Some (c', r', rest).
Proof.
  intros Hc. induction pre as [|ev pre IH]; simpl.
  - rewrite Hc. eauto.
  - destruct ev as [| | | |c0 r0]; auto. destruct (is_to_csv c0); eauto.
Qed.

(** What follows the first write of a run. *)
Lemma main_after_write args c r rest :
  after_write (trace (main W FRED_SERIES args)) = Some (c, r, rest) ->
  rest =
    match r with
    | Some e => failure e
    | None =>
        match args, c with
        | (stock _ | fred _ | news _ | sec _), To_csv _ path _ =>
            [Print (nl +:+ "Data saved to " +:+ path)]
        | _, _ => []
        end
    end.
Proof.
  destruct args as [|a|a|a|a|a|a]; try destruct a; unfold_program; fields;
    run; rewrite ?app_nil_r, <- ?app_assoc;
    repeat (progress (simpl;
              rewrite ?after_write_quiet, ?after_write_quiet_none by assumption));
    intros Haw; inversion Haw; subst; unfold failure;
    repeat match goal with
           | Hb : exc_is_Exception _ = _ |- _ => rewrite Hb
           end;
    reflexivity.
Qed.

(** X9.  After a write that returned, the stock, fred, news and sec
    commands print the line "Data saved to <path>" and nothing more; the
    fundamental and alternative commands print nothing: the write is the
    last event of the run. *)
Theorem after_a_write args pre table path index post :
  trace (main W FRED_SERIES args) =
    (pre ++ Invoke (To_csv table path index) None :: post)%list ->
  post =
    match args with
    | stock _ | fred _ | news _ | sec _ => [Print (nl +:+ "Data saved to " +:+ path)]
    | _ => []
    end.
Proof.
  intros Ht.
  destruct (after_write_some pre post (To_csv table path index) None eq_refl)
    as (c' & r' & rest & Haw).
  pose proof Haw as Hsplit. rewrite <- Ht in Haw.
  apply main_after_write in Haw.
  apply after_write_split in Hsplit; [|reflexivity|].
  - destruct Hsplit as (-> & -> & <-). rewrite Haw. destruct args; reflexivity.
  - subst rest. destruct r' as [e|].
    + unfold csv_writes. rewrite failure_quiet. reflexivity.
    + destruct args, c'; reflexivity.
Qed.

(** X10.  In the ratios, metrics and trend branches of the fundamental
    command and in both branches of the alternative command, once the
    constructor and the fetch have returned, the fetched table is written
    exactly when [--output] holds a non-empty path, also when the table
    is empty. *)
Theorem tables_written_when_path_given :
  (forall a ratios,
      new_FundamentalScraper W = Returned tt ->
      fundamental_ratios a = true ->
      get_valuation_ratios W (fundamental_symbol a) = Returned ratios ->
      csv_writes (trace (main W FRED_SERIES (fundamental a))) =
        match fundamental_output a with
        | Some (String _ _ as path) => [To_csv (DataFrame_of_records [ratios]) path false]
        | _ => []
        end) /\
  (forall a metrics,
      new_FundamentalScraper W = Returned tt ->
      fundamental_ratios a = false -> fundamental_metrics a = true ->
      get_key_metrics W (fundamental_symbol a) = Returned metrics ->
      csv_writes (trace (main W FRED_SERIES (fundamental a))) =
        match fundamental_output a with
        | Some (String _ _ as path) => [To_csv (DataFrame_of_records [metrics]) path false]
        | _ => []
        end) /\
  (forall a trend,
      new_FundamentalScraper W = Returned tt ->
      fundamental_ratios a = false -> fundamental_metrics a = false ->
      fundamental_trend a = true ->
      get_revenue_profit_trend W (fundamental_symbol a) = Returned trend ->
      csv_writes (trace (main W FRED_SERIES (fundamental a))) =
        match fundamental_output a with
        | Some (String _ _ as path) => [To_csv trend path false]
        | _ => []
        end) /\
  (forall a data,
      new_AlternativeDataScraper W = Returned tt ->
      alternative_short_interest a = true ->
      get_short_interest W (alternative_symbol a) = Returned data ->
      csv_writes (trace (main W FRED_SERIES (alternative a))) =
        match alternative_output a with
        | Some (String _ _ as path) => [To_csv (DataFrame_of_records [data]) path false]
        | _ => []
        end) /\
  (forall a data,
      new_AlternativeDataScraper W = Returned tt ->
      alternative_short_interest a = false -> alternative_institutional a = true ->
      get_institutional_holdings W (alternative_symbol a) = Returned data ->
      csv_writes (trace (main W FRED_SERIES (alternative a))) =
        match alternative_output a with
        | Some (String _ _ as path) => [To_csv data path false]
        | _ => []
        end).
Proof.
  repeat split.
  all: intros a ?; destruct a; simpl; intros; subst.
  all: unfold_program; fields; rewrite given_str.
  all: repeat match goal with
              | Heq : _ = Returned _ |- _ => rewrite Heq; clear Heq
              end.
  all: repeat match goal with
              | |- context [match ?o with Some _ => _ | None => _ end] =>
                  is_var o; destruct o as [[|? ?]|]
              end;
       run; count; reflexivity.
Qed.

Lemma printed_app (t1 t2 : list Event) :
  printed (t1 ++ t2) = (printed t1 ++ printed t2)%list.
Proof. apply omap_app. Qed.

Lemma for_each_printed {A} (l : list A) (body : A -> M unit) :
  (forall x, outcome (body x) = Returned tt) ->
  printed (trace (for_each l body)) = flat_map (fun x => printed (trace (body x))) l.
Proof.
  intros Hr. induction l as [|x l IH]; [reflexivity|].
  simpl. specialize (Hr x).
  destruct (body x) as [t r], (for_each l body) as [t' r'].
  simpl in *. subst. simpl. rewrite printed_app, IH. reflexivity.
Qed.

(** X11.  The financial-statements branch prints the banner and then, for
    each entry of the fetched dictionary in order whose value is a
    non-empty DataFrame, a heading (the key in upper case with spaces for
    underscores) and the table with its index; other entries print
    nothing. *)
Theorem financial_statements_listing a financials :
  fundamental_ratios a = false ->
  fundamental_metrics a = false ->
  fundamental_trend a = false ->
  new_FundamentalScraper W = Returned tt ->
  get_financials W (fundamental_symbol a) = Returned financials ->
  printed (trace (main W FRED_SERIES (fundamental a))) =
    ([nl +:+ str_mul "=" 60;
      "Financial Statements: " +:+ fundamental_symbol a;
      str_mul "=" 60] ++
     flat_map (fun '(key, value) =>
                 match value with
                 | VDataFrame table =>
                     if df_empty table then []
                     else [nl +:+ replace "_" " " (upper key) +:+ ":";
                           df_to_string default_options true table]
                 | VOther => []
                 end) financials)%list.
Proof.
  destruct a as [symbol ratios metrics trend output]. simpl.
  intros -> -> -> Hnew Hfin. unfold_program. fields. rewrite Hnew, Hfin. simpl.
  match goal with
  | |- context [for_each ?l ?body] =>
      assert (forall x, outcome (body x) = Returned tt) as Hr
        by (intros [? [table|]]; simpl; try destruct (df_empty table); reflexivity);
      pose proof (for_each_returns l body Hr) as Hret;
      pose proof (for_each_printed l body Hr) as Hpr;
      destruct (for_each l body) as [t r]
  end.
  simpl in Hret, Hpr. subst r. simpl. unfold banner_rule. do 3 f_equal.
  rewrite Hpr. clear. induction financials as [|[key [table|]] l IH]; simpl.
  - reflexivity.
  - rewrite IH. destruct (df_empty table); reflexivity.
  - exact IH.
Qed.

Lemma upper_char_idempotent c : upper_char (upper_char c) = upper_char c.
Proof.
  unfold upper_char.
  destruct ((97 <=? nat_of_ascii c)%nat && (nat_of_ascii c <=? 122)%nat) eqn:Hc.
  - apply andb_true_iff in Hc as [Hlo Hhi].
    apply Nat.leb_le in Hlo. apply Nat.leb_le in Hhi.
    rewrite nat_ascii_embedding by lia.
    replace (97 <=? nat_of_ascii c - 32)%nat with false; [reflexivity|].
    symmetry. apply Nat.leb_gt. lia.
  - rewrite Hc. reflexivity.
Qed.

Lemma upper_idempotent s : upper (upper s) = upper s.
Proof.
  induction s as [|c s IH]; [reflexivity|]. simpl.
  rewrite upper_char_idempotent, IH. reflexivity.
Qed.

(** X12.  The series lookup ignores the letter case of a known name: two
    arguments with the same upper-cased form, which is a key of
    [FRED_SERIES], resolve to the same series id.  A key of the table
    that is not in upper case is never looked up. *)
Theorem series_lookup_by_upper_case (s1 s2 : string) :
  (upper s1 = upper s2 ->
   is_Some (FRED_SERIES !! upper s1) ->
   resolve_series FRED_SERIES s1 = resolve_series FRED_SERIES s2) /\
  (forall key, upper key <> key -> upper s1 <> key).
Proof.
  split.
  - intros Heq [id Hid]. unfold resolve_series. rewrite <- Heq, Hid. reflexivity.
  - intros key Hkey Heq. apply Hkey. rewrite <- Heq. apply upper_idempotent.
Qed.

End MoreOfMain.

(** * Properties of [example_usage.py] *)

Ltac unfold_examples :=
  unfold example_stock_data, example_fundamental_data, example_news_data,
    example_alternative_data, example_fred_data,
    dict_getitem, row_getitem, raise, lift,
    StockScraper_new, FREDClient_new, FundamentalScraper_new, NewsScraper_new,
    AlternativeDataScraper_new,
    scraper_get_real_time_quote, scraper_get_historical_data,
    fred_get_release_observations, fred_get_series,
    scraper_get_valuation_ratios, scraper_get_key_metrics,
    scraper_get_company_news, scraper_get_sec_filings,
    scraper_get_short_interest, scraper_get_institutional_holdings,
    call, print, emit in *.

Section ExampleRuns.

Context `{Pandas} `{!PyObjects}.
Variable W : World.

Lemma for_each_quiet {A} (l : list A) (body : A -> M unit) :
  (forall x, calls (trace (body x)) = []) ->
  calls (trace (for_each l body)) = [].
Proof.
  intros Hc. induction l as [|x l IH]; [reflexivity|].
  simpl. specialize (Hc x).
  destruct (body x) as [t [[]|e]], (for_each l body) as [t' r']; simpl in *;
    rewrite ?calls_app, ?Hc, ?IH; auto.
Qed.

Lemma print_article_quiet entry : calls (trace (print_article entry)) = [].
Proof.
  destruct entry as [idx row]. unfold print_article. unfold_examples.
  destruct (add_one idx); simpl; [|reflexivity].
  destruct (row_lookup row "title"); simpl; [|reflexivity].
  destruct (row_lookup row "published_date"); simpl; [|reflexivity].
  destruct (row_lookup row "link"); reflexivity.
Qed.

Lemma print_filing_quiet entry : calls (trace (print_filing entry)) = [].
Proof.
  destruct entry as [idx row]. unfold print_filing. unfold_examples.
  destruct (add_one idx); simpl; [|reflexivity].
  destruct (row_lookup row "filing_type"); simpl; [|reflexivity].
  destruct (row_lookup row "title"); simpl; [|reflexivity].
  destruct (row_lookup row "published"); reflexivity.
Qed.

End ExampleRuns.

Ltac name_loop :=
  match goal with
  | |- context [for_each ?l print_article] =>
      let t := fresh "articles" in
      let r := fresh "r" in
      let Hc := fresh "Harticles" in
      pose proof (for_each_quiet l print_article print_article_quiet) as Hc;
      destruct (for_each l print_article) as [t [[]|?]];
      simpl in Hc
  | |- context [for_each ?l print_filing] =>
      let t := fresh "filings" in
      let r := fresh "r" in
      let Hc := fresh "Hfilings" in
      pose proof (for_each_quiet l print_filing print_filing_quiet) as Hc;
      destruct (for_each l print_filing) as [t [[]|?]];
      simpl in Hc
  end.

Ltac example_step :=
  match goal with
  | |- context [match ?x with Returned _ => _ | Raised _ => _ end] =>
      destruct x as [?|?] eqn:?
  | |- context [match ?x with Some _ => _ | None => _ end] =>
      destruct x as [?|] eqn:?
  | |- context [if ?b then _ else _] => destruct b eqn:?
  end;
  repeat match goal with u : unit |- _ => destruct u end.

Ltac run_example := repeat (simpl; first [name_loop | example_step]); simpl.

Section ExampleProperties.

Context `{Pandas} `{!PyObjects}.
Variable W : World.

(** In each example the first call that raises ends the run. *)
Lemma examples_after_raise (m : M unit) e rest :
  In m [example_stock_data W; example_fred_data W; example_fundamental_data W;
        example_news_data W; example_alternative_data W] ->
  after_raise (trace m) = Some (e, rest) ->
  rest = [] /\ outcome m = Raised e.
Proof.
  simpl. intros [<-|[<-|[<-|[<-|[<-|[]]]]]]; unfold_examples; run_example;
    rewrite ?app_nil_r, <- ?app_assoc;
    repeat (progress (simpl;
              rewrite ?after_raise_quiet, ?after_raise_quiet_none by assumption));
    intros Har; inversion Har; subst; split; reflexivity.
Qed.

(** X13.  None of the five example functions handles an exception: a
    call that raises is the last event of the example and its exception
    is the outcome. *)
Theorem examples_do_not_handle_exceptions (m : M unit) pre c e post :
  In m [example_stock_data W; example_fred_data W; example_fundamental_data W;
        example_news_data W; example_alternative_data W] ->
  trace m = (pre ++ Invoke c (Some e) :: post)%list ->
  post = [] /\ outcome m = Raised e.
Proof.
  intros Hm Ht.
  destruct (after_raise_some pre post c e) as (e' & rest & Har).
  pose proof Har as Hsplit. rewrite <- Ht in Har.
  destruct (examples_after_raise m e' rest Hm Har) as [-> Hout].
  destruct (after_raise_split _ _ _ _ _ _ Hsplit eq_refl) as [-> <-]. auto.
Qed.

(** X14.  The script block of [example_usage.py] runs the examples in the
    order stock, fred, fundamental, news, alternative.  When one raises,
    the later ones do not run; if what it raised is an instance of
    [Exception], the line "Error running examples: <message>" and the
    traceback follow and the script returns; any other exception leaves
    the script as it came, with nothing printed after it.  When all five
    return, the closing lines are printed and the script returns. *)
Theorem example_usage_main_stops_at_first_failure :
  let header := [Print (nl +:+ str_mul "=" 60);
                 Print "STOCK AND MARKET ECONOMICS DATA SCRAPER";
                 Print "EXAMPLE USAGE";
                 Print (str_mul "=" 60)] in
  let report e :=
    if exc_is_Exception e
    then [Print (nl +:+ "Error running examples: " +:+ exc_str e); PrintExc e]
    else [] in
  let ending e : Result unit :=
    if exc_is_Exception e then Returned tt else Raised e in
  let stock_run := example_stock_data W in
  let fred_run := example_fred_data W in
  let fundamental_run := example_fundamental_data W in
  let news_run := example_news_data W in
  let alternative_run := example_alternative_data W in
  (forall e,
      outcome stock_run = Raised e ->
      trace (example_usage_main W) = (header ++ trace stock_run ++ report e)%list /\
      outcome (example_usage_main W) = ending e) /\
  (forall e,
      outcome stock_run = Returned tt -> outcome fred_run = Raised e ->
      trace (example_usage_main W) =
        (header ++ trace stock_run ++ trace fred_run ++ report e)%list /\
      outcome (example_usage_main W) = ending e) /\
  (forall e,
      outcome stock_run = Returned tt -> outcome fred_run = Returned tt ->
      outcome fundamental_run = Raised e ->
      trace (example_usage_main W) =
        (header ++ trace stock_run ++ trace fred_run ++ trace fundamental_run ++
         report e)%list /\
      outcome (example_usage_main W) = ending e) /\
  (forall e,
      outcome stock_run = Returned tt -> outcome fred_run = Returned tt ->
      outcome fundamental_run = Returned tt -> outcome news_run = Raised e ->
      trace (example_usage_main W) =
        (header ++ trace stock_run ++ trace fred_run ++ trace fundamental_run ++
         trace news_run ++ report e)%list /\
      outcome (example_usage_main W) = ending e) /\
  (forall e,
      outcome stock_run = Returned tt -> outcome fred_run = Returned tt ->
      outcome fundamental_run = Returned tt -> outcome news_run = Returned tt ->
      outcome alternative_run = Raised e ->
      trace (example_usage_main W) =
        (header ++ trace stock_run ++ trace fred_run ++ trace fundamental_run ++
         trace news_run ++ trace alternative_run ++ report e)%list /\
      outcome (example_usage_main W) = ending e) /\
  (outcome stock_run = Returned tt -> outcome fred_run = Returned tt ->
   outcome fundamental_run = Returned tt -> outcome news_run = Returned tt ->
   outcome alternative_run = Returned tt ->
   trace (example_usage_main W) =
     (header ++ trace stock_run ++ trace fred_run ++ trace fundamental_run ++
      trace news_run ++ trace alternative_run ++
      [Print (nl +:+ str_mul "=" 60);
       Print "Examples completed successfully!";
       Print (str_mul "=" 60);
       Print (nl +:+ "For more information, see README.md")])%list /\
   outcome (example_usage_main W) = Returned tt).
Proof.
  intros header report ending stock_run fred_run fundamental_run news_run
    alternative_run.
  subst header report ending stock_run fred_run fundamental_run news_run
    alternative_run.
  unfold example_usage_main, examples_body, examples_failure, try_except, print, emit.
  destruct (example_stock_data W) as [t1 [[]|e1]],
           (example_fred_data W) as [t2 [[]|e2]],
           (example_fundamental_data W) as [t3 [[]|e3]],
           (example_news_data W) as [t4 [[]|e4]],
           (example_alternative_data W) as [t5 [[]|e5]]; simpl.
  all: repeat match goal with
              | |- _ /\ _ => split
              end; intros; try discriminate.
  all: repeat match goal with
              | Heq : Raised _ = Raised _ |- _ => inversion Heq; clear Heq; subst
              end.
  all: repeat match goal with
              | |- context [exc_is_Exception ?e] => destruct (exc_is_Exception e)
              end; simpl.
  all: rewrite <- ?app_assoc, ?app_nil_r; split; reflexivity.
Qed.

(** X15.  [example_stock_data] indexes the quote: without the key
    'current_price' it raises [KeyError] right after the first heading,
    and with it but without 'market_cap' it raises after the price line;
    in both cases the historical data is not fetched. *)
Theorem example_stock_data_needs_its_keys quote :
  new_StockScraper W = Returned tt ->
  get_real_time_quote W "AAPL" = Returned quote ->
  (dict_lookup quote "current_price" = None ->
   outcome (example_stock_data W) = Raised (KeyError "current_price") /\
   printed (trace (example_stock_data W)) =
     [nl +:+ str_mul "=" 60; "STOCK DATA EXAMPLE"; str_mul "=" 60;
      nl +:+ "1. Real-time Quote for AAPL:"] /\
   fetches (trace (example_stock_data W)) = [Get_real_time_quote "AAPL"]) /\
  (forall price,
      dict_lookup quote "current_price" = Some price ->
      dict_lookup quote "market_cap" = None ->
      outcome (example_stock_data W) = Raised (KeyError "market_cap") /\
      printed (trace (example_stock_data W)) =
        [nl +:+ str_mul "=" 60; "STOCK DATA EXAMPLE"; str_mul "=" 60;
         nl +:+ "1. Real-time Quote for AAPL:";
         "   Current Price: $" +:+ format_value price] /\
      fetches (trace (example_stock_data W)) = [Get_real_time_quote "AAPL"]).
Proof.
  intros Hnew Hquote. unfold_examples. rewrite Hnew, Hquote. split.
  - intros Hprice. simpl. rewrite Hprice. repeat split; reflexivity.
  - intros price Hprice Hcap. simpl. rewrite Hprice. simpl. rewrite Hcap.
    repeat split; reflexivity.
Qed.

(** X16.  [example_fundamental_data] and [example_alternative_data] read
    fields with [get], so a missing key raises nothing by itself: once
    the constructor and the first fetch returned, the fundamental example
    fails only through the grouping format of market cap or revenue or
    through the second fetch, and the alternative example only through
    the second fetch. *)
Theorem examples_read_fields_with_get :
  (forall ratios,
      new_FundamentalScraper W = Returned tt ->
      get_valuation_ratios W "AAPL" = Returned ratios ->
      outcome (example_fundamental_data W) =
        match format_grouped (dict_get ratios "market_cap") with
        | Raised e => Raised e
        | Returned _ =>
            match get_key_metrics W "AAPL" with
            | Raised e => Raised e
            | Returned metrics =>
                match format_grouped (dict_get metrics "revenue") with
                | Raised e => Raised e
                | Returned _ => Returned tt
                end
            end
        end) /\
  (forall short_interest,
      new_AlternativeDataScraper W = Returned tt ->
      get_short_interest W "AAPL" = Returned short_interest ->
      outcome (example_alternative_data W) =
        match get_institutional_holdings W "AAPL" with
        | Raised e => Raised e
        | Returned _ => Returned tt
        end).
Proof.
  split.
  - intros ratios Hnew Hratios. unfold_examples. rewrite Hnew, Hratios. simpl.
    destruct (format_grouped (dict_get ratios "market_cap")); simpl; [|reflexivity].
    destruct (get_key_metrics W "AAPL") as [metrics|]; simpl; [|reflexivity].
    destruct (format_grouped (dict_get metrics "revenue")); reflexivity.
  - intros short_interest Hnew Hshort. unfold_examples. rewrite Hnew, Hshort. simpl.
    destruct (get_institutional_holdings W "AAPL") as [table|]; simpl; [|reflexivity].
    destruct (df_empty table); reflexivity.
Qed.

Lemma for_each_stops {A} (done later : list A) (x : A) (body : A -> M unit) e :
  (forall y, In y done -> outcome (body y) = Returned tt) ->
  outcome (body x) = Raised e ->
  for_each (done ++ x :: later) body =
    ((flat_map (fun y => trace (body y)) done ++ trace (body x))%list, Raised e).
Proof.
  intros Hdone Hx. induction done as [|y done IH]; simpl.
  - destruct (body x) as [t r]. simpl in *. subst r. reflexivity.
  - rewrite IH by (intros z Hz; apply Hdone; right; exact Hz).
    pose proof (Hdone y (or_introl eq_refl)) as Hy.
    destruct (body y) as [t r]. simpl in *. subst r. simpl.
    rewrite <- app_assoc. reflexivity.
Qed.

(** X17.  When a row of the news has no 'title', [example_news_data]
    raises [KeyError] there: the articles before it stay printed, and the
    SEC filings are not fetched. *)
Theorem example_news_data_stops_at_incomplete_article news done idx row later number :
  new_NewsScraper W = Returned tt ->
  get_company_news W "AAPL" (Given 3%Z) = Returned news ->
  df_empty news = false ->
  df_iterrows news = (done ++ (idx, row) :: later)%list ->
  (forall entry, In entry done -> outcome (print_article entry) = Returned tt) ->
  add_one idx = Returned number ->
  row_lookup row "title" = None ->
  outcome (example_news_data W) = Raised (KeyError "title") /\
  fetches (trace (example_news_data W)) = [Get_company_news "AAPL" (Given 3%Z)] /\
  printed (trace (example_news_data W)) =
    ([nl +:+ str_mul "=" 60; "NEWS AND SEC FILINGS EXAMPLE"; str_mul "=" 60;
      nl +:+ "1. Recent News for AAPL (first 3 articles):"] ++
     flat_map (fun entry => printed (trace (print_article entry))) done)%list.
Proof.
  intros Hnew Hnews Hempty Hrows Hdone Hidx Htitle.
  assert (print_article (idx, row) = ([], Raised (KeyError "title"))) as Hrow.
  { unfold print_article. unfold_examples. rewrite Hidx. simpl. rewrite Htitle.
    reflexivity. }
  unfold_examples. rewrite Hnew, Hnews. simpl. rewrite Hempty. simpl.
  rewrite Hrows.
  rewrite (for_each_stops done later (idx, row) print_article (KeyError "title") Hdone)
    by (rewrite Hrow; reflexivity).
  rewrite Hrow. simpl. rewrite app_nil_r.
  assert (calls (flat_map (fun y => trace (print_article y)) done) = []) as Hq.
  { clear. induction done as [|y l IH]; [reflexivity|]. simpl.
    rewrite calls_app, print_article_quiet, IH. reflexivity. }
  repeat split.
  - unfold fetches. simpl. rewrite Hq. reflexivity.
  - simpl. do 4 f_equal. clear. induction done as [|y l IH]; [reflexivity|].
    simpl. rewrite printed_app, IH. reflexivity.
Qed.

(** X18.  With no news and no filings, [example_news_data] returns
    having printed its banner and two headings and no row. *)
Theorem example_news_data_nothing_found news filings :
  new_NewsScraper W = Returned tt ->
  get_company_news W "AAPL" (Given 3%Z) = Returned news ->
  get_sec_filings W "AAPL" Default (Given 3%Z) = Returned filings ->
  df_empty news = true ->
  df_empty filings = true ->
  outcome (example_news_data W) = Returned tt /\
  printed (trace (example_news_data W)) =
    [nl +:+ str_mul "=" 60; "NEWS AND SEC FILINGS EXAMPLE"; str_mul "=" 60;
     nl +:+ "1. Recent News for AAPL (first 3 articles):";
     nl +:+ "2. Recent SEC Filings for AAPL:"].
Proof.
  intros Hnew Hnews Hfilings Hn Hf. unfold_examples.
  rewrite Hnew, Hnews. simpl. rewrite Hn. simpl. rewrite Hfilings. simpl. rewrite Hf.
  split; reflexivity.
Qed.

End ExampleProperties.

(** ** The further properties on the fixtures *)

Lemma fundamental_modes_witness :
  fetches (trace (main (world (Returned prices)) series_table
                    (fundamental (Scripts.fundamental_args true true false None)))) =
    [Get_valuation_ratios "AAPL"].
Proof.
  exact (fundamental_modes (world (Returned prices)) series_table
           (Scripts.fundamental_args true true false None) eq_refl).
Defined.

Lemma financial_statements_not_written_witness :
  csv_writes (trace (main (world (Returned prices)) series_table
                       (fundamental (Scripts.fundamental_args false false false
                                       (Some "out.csv"))))) = [].
Proof.
  exact (financial_statements_not_written (world (Returned prices)) series_table
           (Scripts.fundamental_args false false false (Some "out.csv"))
           eq_refl eq_refl eq_refl).
Defined.

Lemma financial_statements_listing_witness :
  printed (trace (main (world (Returned prices)) series_table
                    (fundamental (Scripts.fundamental_args false false false None)))) =
    [nl +:+ str_mul "=" 60; "Financial Statements: AAPL"; str_mul "=" 60;
     nl +:+ "INCOME STATEMENT:";
     df_to_string default_options true prices].
Proof.
  exact (financial_statements_listing (world (Returned prices)) series_table
           (Scripts.fundamental_args false false false None)
           [("income_statement", VDataFrame prices)]
           eq_refl eq_refl eq_refl eq_refl eq_refl).
Defined.

Lemma tables_written_when_path_given_witness :
  csv_writes (trace (main (world (Returned no_rows)) series_table
                       (alternative (Scripts.alternative_args false true
                                       (Some "holders.csv"))))) =
    [To_csv no_rows "holders.csv" false].
Proof.
  exact (proj2 (proj2 (proj2 (proj2
           (tables_written_when_path_given (world (Returned no_rows)) series_table))))
           (Scripts.alternative_args false true (Some "holders.csv")) no_rows
           eq_refl eq_refl eq_refl eq_refl).
Defined.

Lemma after_a_write_witness :
  trace (main (world (Returned prices)) series_table (news (news_args (Some "out.csv")))) =
    (([Invoke New_NewsScraper None;
       Invoke (Get_company_news "AAPL" (Given 20%Z)) None] ++
      trace (print_dataframe prices "Company News: AAPL")) ++
     Invoke (To_csv prices "out.csv" false) None ::
     [Print (nl +:+ "Data saved to out.csv")])%list /\
  [Print (nl +:+ "Data saved to out.csv")] = [Print (nl +:+ "Data saved to " +:+ "out.csv")].
Proof.
  split; [reflexivity|].
  exact (after_a_write (world (Returned prices)) series_table
           (news (news_args (Some "out.csv")))
           ([Invoke New_NewsScraper None;
             Invoke (Get_company_news "AAPL" (Given 20%Z)) None] ++
            trace (print_dataframe prices "Company News: AAPL"))%list
           prices "out.csv" false [Print (nl +:+ "Data saved to out.csv")] eq_refl).
Defined.

Lemma alternative_modes_witness :
  trace (main (world (Returned prices)) series_table
           (alternative (Scripts.alternative_args false false (Some "out.csv")))) =
    [Invoke New_AlternativeDataScraper None;
     Print "Please specify --short-interest or --institutional"].
Proof.
  exact (proj2 (alternative_modes (world (Returned prices)) series_table
                  (Scripts.alternative_args false false (Some "out.csv")) eq_refl)
           eq_refl eq_refl).
Defined.

Lemma fred_branch_priority_witness :
  fetches (trace (main (world (Returned prices)) series_table
                    (fred (Scripts.search_args "inflation")))) =
    [Search_series "inflation"].
Proof.
  exact (proj1 (fred_branch_priority (world (Returned prices)) series_table
                  (Scripts.search_args "inflation") eq_refl)
           "inflation" eq_refl ltac:(discriminate)).
Defined.

Lemma every_write_goes_to_output_witness :
  output_of (news (news_args (Some "out.csv"))) = Some "out.csv" /\
  "out.csv" <> "" /\ false = false.
Proof.
  apply (proj2 (every_write_goes_to_output (world (Returned prices)) series_table
                  (news (news_args (Some "out.csv")))) prices "out.csv" false).
  simpl. auto.
Defined.

Lemma symbol_is_passed_as_given_witness :
  call_symbol (Get_company_news "AAPL" (Given 20%Z)) = Some "AAPL".
Proof.
  apply (symbol_is_passed_as_given (world (Returned prices)) series_table
           (news (news_args None))).
  simpl. auto.
Defined.

Lemma series_lookup_by_upper_case_witness :
  resolve_series series_table "gdp" = resolve_series series_table "Gdp" /\
  upper "gdp" <> "Gdp".
Proof.
  split.
  - apply (proj1 (series_lookup_by_upper_case series_table "gdp" "Gdp"));
      [reflexivity|]. exists "GDP". reflexivity.
  - apply (proj2 (series_lookup_by_upper_case series_table "gdp" "Gdp")).
    discriminate.
Defined.

Lemma examples_do_not_handle_exceptions_witness :
  outcome (@example_fred_data Scripts.pandas (Scripts.world [] (Raised http_error))) =
    Raised http_error.
Proof.
  refine (proj2 (@examples_do_not_handle_exceptions Scripts.pandas Scripts.objects
                   (Scripts.world [] (Raised http_error))
                   (@example_fred_data Scripts.pandas (Scripts.world [] (Raised http_error)))
                   [Print (nl +:+ str_mul "=" 60); Print "FRED ECONOMIC DATA EXAMPLE";
                    Print (str_mul "=" 60); Invoke (New_FREDClient Default) None;
                    Print (nl +:+ "1. GDP Data (last 5 years):")]
                   (Get_series "GDP" (Given (Some "2019-01-01")) Default)
                   http_error [] _ eq_refl)).
  simpl. auto.
Defined.

Lemma example_usage_main_stops_at_first_failure_witness :
  trace (@example_usage_main Scripts.pandas Scripts.objects
           (Scripts.world [] (Returned prices))) =
    ([Print (nl +:+ str_mul "=" 60); Print "STOCK AND MARKET ECONOMICS DATA SCRAPER";
      Print "EXAMPLE USAGE"; Print (str_mul "=" 60)] ++
     trace (@example_stock_data Scripts.pandas Scripts.objects
              (Scripts.world [] (Returned prices))) ++
     [Print (nl +:+ "Error running examples: 'current_price'");
      PrintExc (KeyError "current_price")])%list /\
  outcome (@example_usage_main Scripts.pandas Scripts.objects
             (Scripts.world [] (Returned prices))) = Returned tt.
Proof.
  exact (proj1 (@example_usage_main_stops_at_first_failure
                  Scripts.pandas Scripts.objects
                  (Scripts.world [] (Returned prices)))
           (KeyError "current_price") eq_refl).
Defined.

Lemma example_stock_data_needs_its_keys_witness :
  outcome (@example_stock_data Scripts.pandas Scripts.objects
             (Scripts.world Scripts.priced_quote (Returned prices))) =
    Raised (KeyError "market_cap").
Proof.
  exact (proj1 (proj2 (@example_stock_data_needs_its_keys Scripts.pandas Scripts.objects
                         (Scripts.world Scripts.priced_quote (Returned prices))
                         Scripts.priced_quote eq_refl eq_refl)
                  (Scripts.VInt 185) eq_refl eq_refl)).
Defined.

Lemma examples_read_fields_with_get_witness :
  outcome (@example_alternative_data Scripts.pandas Scripts.objects
             (Scripts.world [] (Returned no_rows))) = Returned tt.
Proof.
  exact (proj2 (@examples_read_fields_with_get Scripts.pandas Scripts.objects
                  (Scripts.world [] (Returned no_rows)))
           [] eq_refl eq_refl).
Defined.

Lemma example_news_data_stops_at_incomplete_article_witness :
  outcome (@example_news_data Scripts.pandas Scripts.objects
             (Scripts.world [] (Returned Scripts.untitled))) =
    Raised (KeyError "title") /\
  fetches (trace (@example_news_data Scripts.pandas Scripts.objects
                    (Scripts.world [] (Returned Scripts.untitled)))) =
    [Get_company_news "AAPL" (Given 3%Z)].
Proof.
  pose proof (@example_news_data_stops_at_incomplete_article
                Scripts.pandas Scripts.objects
                (Scripts.world [] (Returned Scripts.untitled))
                Scripts.untitled [] (Scripts.VInt 0)
                [("published_date", Scripts.VStr "2024-01-02");
                 ("link", Scripts.VStr "https://example.org/a")]
                [] (Scripts.VInt 1)
                eq_refl eq_refl eq_refl eq_refl
                (fun entry (Hin : In entry []) => match Hin with end)
                eq_refl eq_refl) as (Hout & Hfetch & _).
  exact (conj Hout Hfetch).
Defined.

Lemma example_news_data_nothing_found_witness :
  printed (trace (@example_news_data Scripts.pandas Scripts.objects
                    (Scripts.world [] (Returned no_rows)))) =
    [nl +:+ str_mul "=" 60; "NEWS AND SEC FILINGS EXAMPLE"; str_mul "=" 60;
     nl +:+ "1. Recent News for AAPL (first 3 articles):";
     nl +:+ "2. Recent SEC Filings for AAPL:"].
Proof.
  exact (proj2 (@example_news_data_nothing_found Scripts.pandas Scripts.objects
                  (Scripts.world [] (Returned no_rows)) no_rows no_rows
                  eq_refl eq_refl eq_refl eq_refl eq_refl)).
Defined.
